(** * Campaign-ER: engagement-rate updater

    A shallow embedding of [Campaign-ER.py], the single-endpoint service
    that reads a campaign's linked influencers from the table store, asks
    the video platform for each influencer's uploads of the last 90 days,
    averages views, likes and comments over the long-form videos and
    writes the three averages back.

    The two remote services and the third-party parsers are the
    environment: they are gathered in the record [world] and every
    request sent upstream is written to a log, so that statements about
    what was (or was not) requested are statements about that log. *)

From Stdlib Require Import ZArith List String Ascii Bool Lia.
From Stdlib Require Import Floats.SpecFloat.
From Stdlib Require Import Permutation.
Import ListNotations.

Open Scope string_scope.
Open Scope Z_scope.

(* ===================================================================== *)
(** * Exceptions and results *)
(* ===================================================================== *)

(** A Python exception: its class and the text [str(e)] yields. *)
Record exn := Exn { exn_class : string; exn_text : string }.

Definition KeyError (k : string) : exn := Exn "KeyError" ("'" ++ k ++ "'").
Definition ValueError (m : string) : exn := Exn "ValueError" m.
Definition TypeError (m : string) : exn := Exn "TypeError" m.
Definition OverflowError (m : string) : exn := Exn "OverflowError" m.
Definition ZeroDivisionError : exn := Exn "ZeroDivisionError" "division by zero".
Definition ISO8601Error (m : string) : exn := Exn "ISO8601Error" m.

(** Code that makes no request upstream either returns or raises. *)
Inductive result (A : Type) : Type :=
| Ok (a : A)
| Raise (e : exn).
Arguments Ok {A} a.
Arguments Raise {A} e.

Definition rbind {A B} (m : result A) (k : A -> result B) : result B :=
  match m with
  | Ok a => k a
  | Raise e => Raise e
  end.

(** [try: m  except Exception as e: h e] *)
Definition try_except {A} (m : result A) (h : exn -> result A) : result A :=
  match m with
  | Ok a => Ok a
  | Raise e => h e
  end.

Declare Scope result_scope.
Delimit Scope result_scope with result.
Notation "x <~ m ;; k" := (rbind m (fun x => k))
  (at level 61, m at next level, right associativity) : result_scope.

(* ===================================================================== *)
(** * Characters and decimal literals *)
(* ===================================================================== *)

Definition digit_of (c : ascii) : option Z :=
  let n := Z.of_nat (nat_of_ascii c) in
  if (48 <=? n) && (n <=? 57) then Some (n - 48) else None.

Definition is_digit (c : ascii) : bool :=
  match digit_of c with Some _ => true | None => false end.

(** Printable, non-blank ASCII other than the underscore: on strings of
    such characters the outcome of [int(s)] is decided by the decimal
    grammar alone. *)
Definition is_plain (c : ascii) : bool :=
  let n := Z.of_nat (nat_of_ascii c) in
  (33 <=? n) && (n <=? 126) && negb (n =? 95).

Fixpoint all_chars (p : ascii -> bool) (s : string) : bool :=
  match s with
  | EmptyString => true
  | String c s' => p c && all_chars p s'
  end.

Fixpoint decimal_value (acc : Z) (s : string) : Z :=
  match s with
  | EmptyString => acc
  | String c s' =>
      match digit_of c with
      | Some d => decimal_value (10 * acc + d) s'
      | None => acc
      end
  end.

Definition is_decimal (s : string) : bool :=
  negb (String.eqb s "") && all_chars is_digit s.

Definition starts_with (p s : string) : bool := String.prefix p s.

(* ===================================================================== *)
(** * The data exchanged with the two services *)
(* ===================================================================== *)

(** The field mapping of a table-store record.  A campaign is read
    through ['Creator'], an influencer through ['YouTube Channel ID'];
    [None] is an absent key. *)
Record fields := {
  Creator : option (list string);
  YouTube_Channel_ID : option string
}.

(** The three output fields written back to an influencer. *)
Record averages := { LGVPV90 : Z; LGLPV90 : Z; LGCPV90 : Z }.

(** An entry of the channels listing:
    [item['contentDetails']['relatedPlaylists']['uploads']]. *)
Record channel_item := { uploads : option string }.

(** An entry of a playlist page, under ['contentDetails']. *)
Record playlist_item := {
  videoPublishedAt : option string;
  videoId : option string
}.

Record page := {
  items : list playlist_item;
  nextPageToken : option string
}.

Record stats := {
  viewCount : option string;
  likeCount : option string;
  commentCount : option string
}.

(** An entry of the videos listing: [duration] stands for
    [video['contentDetails']['duration']]. *)
Record video := {
  duration : option string;
  statistics : option stats
}.

(** A [datetime]: the instant in microseconds since the epoch, and
    whether it carries a time zone. *)
Record datetime := { instant : Z; aware : bool }.

(** A request sent upstream. *)
Inductive call :=
| AirtableGet (table record_id : string)
| AirtablePatch (table record_id : string) (payload : averages)
| YouTubeChannels (channel_id : string)
| YouTubePlaylistItems (playlist_id : string) (pageToken : option string)
| YouTubeVideos (batch : list string).

(** The environment of one request.  A service answers a request with a
    payload, or the request raises ([raise_for_status], transport
    errors).  [dateutil_parse] is [dateutil.parser.parse];
    [isodate_other] and [int_other] are [isodate.parse_duration] and
    the builtin [int] on the inputs the models below leave open;
    [utcnow] is the clock, in microseconds. *)
Record world := {
  airtable_get : string -> string -> result fields;
  airtable_patch : string -> string -> averages -> result unit;
  youtube_channels : string -> result (list channel_item);
  youtube_playlist_items : string -> option string -> result page;
  youtube_videos : list string -> result (list video);
  dateutil_parse : string -> result datetime;
  isodate_other : string -> result Z;
  int_other : string -> result Z;
  utcnow : Z
}.

(* ===================================================================== *)
(** * The builtin [int] on a statistics count *)
(* ===================================================================== *)

Definition strip_sign (s : string) : bool * string :=
  match s with
  | String "-" s' => (true, s')
  | String "+" s' => (false, s')
  | _ => (false, s)
  end.

(** [int(s)] for a string [s].  An optionally signed run of ASCII
    digits is its value; any other string of plain characters is a
    [ValueError]; strings with blanks, underscores, bytes outside ASCII
    or more than 4300 digits are left to [int_other]. *)
Definition py_int (w : world) (s : string) : result Z :=
  let (neg, body) := strip_sign s in
  if all_chars is_plain s && (Z.of_nat (String.length s) <=? 4300) then
    if is_decimal body
    then Ok (if neg then - decimal_value 0 body else decimal_value 0 body)
    else Raise (ValueError ("invalid literal for int() with base 10: '" ++ s ++ "'"))
  else int_other w s.

(** [int(stats.get(key, 0))] *)
Definition int_count (w : world) (raw : option string) : result Z :=
  match raw with
  | None => Ok 0
  | Some s => py_int w s
  end.

(* ===================================================================== *)
(** * ISO-8601 durations *)
(* ===================================================================== *)

Module Iso.

(** The designators of a period in the order the grammar admits them:
    [Y M W D] before the separator [T], [H M S] after it. *)
Record scan := {
  pending : option Z;      (* digits read since the last designator *)
  in_time : bool;          (* the separator T has been read *)
  next_rank : nat;         (* lowest designator still admissible *)
  years : Z; months : Z; weeks : Z; days : Z;
  hours : Z; minutes : Z; seconds : Z
}.

Definition start : scan :=
  {| pending := None; in_time := false; next_rank := 0;
     years := 0; months := 0; weeks := 0; days := 0;
     hours := 0; minutes := 0; seconds := 0 |}.

Definition rank_of (t : bool) (c : ascii) : option nat :=
  if t then
    (if Ascii.eqb c "H" then Some 4
     else if Ascii.eqb c "M" then Some 5
     else if Ascii.eqb c "S" then Some 6
     else None)%nat
  else
    (if Ascii.eqb c "Y" then Some 0
     else if Ascii.eqb c "M" then Some 1
     else if Ascii.eqb c "W" then Some 2
     else if Ascii.eqb c "D" then Some 3
     else None)%nat.

Definition store (st : scan) (r : nat) (n : Z) : scan :=
  let upd (k : nat) (old : Z) := if Nat.eqb r k then n else old in
  {| pending := None; in_time := in_time st; next_rank := S r;
     years := upd 0%nat (years st); months := upd 1%nat (months st);
     weeks := upd 2%nat (weeks st); days := upd 3%nat (days st);
     hours := upd 4%nat (hours st); minutes := upd 5%nat (minutes st);
     seconds := upd 6%nat (seconds st) |}.

Definition with_pending (st : scan) (n : Z) : scan :=
  {| pending := Some n; in_time := in_time st; next_rank := next_rank st;
     years := years st; months := months st; weeks := weeks st;
     days := days st; hours := hours st; minutes := minutes st;
     seconds := seconds st |}.

Definition enter_time (st : scan) : scan :=
  {| pending := None; in_time := true; next_rank := 4;
     years := years st; months := months st; weeks := weeks st;
     days := days st; hours := hours st; minutes := minutes st;
     seconds := seconds st |}.

Definition step (st : scan) (c : ascii) : option scan :=
  match digit_of c with
  | Some d =>
      Some (with_pending st (10 * match pending st with Some n => n | None => 0 end + d))
  | None =>
      match pending st with
      | Some n =>
          match rank_of (in_time st) c with
          | Some r => if Nat.leb (next_rank st) r then Some (store st r n) else None
          | None => None
          end
      | None =>
          if Ascii.eqb c "T" && negb (in_time st) then Some (enter_time st) else None
      end
  end.

Fixpoint run (st : scan) (s : string) : option scan :=
  match s with
  | EmptyString => match pending st with None => Some st | Some _ => None end
  | String c s' =>
      match step st c with
      | Some st' => run st' s'
      | None => None
      end
  end.

(** The components of [sign? P ...] with whole-number fields, or
    [None] when the text is not of that form. *)
Definition designators (s : string) : option (bool * scan) :=
  let (neg, body) := strip_sign s in
  match body with
  | String "P" (String c rest) =>
      match run start (String c rest) with
      | Some st => Some (neg, st)
      | None => None
      end
  | _ => None
  end.

Definition whole_seconds (st : scan) : Z :=
  (((weeks st * 7 + days st) * 24 + hours st) * 60 + minutes st) * 60 + seconds st.

(** [timedelta] keeps [-999999999 <= days <= 999999999]. *)
Definition in_timedelta_range (secs : Z) : bool :=
  (-999999999 <=? secs / 86400) && (secs / 86400 <=? 999999999).

End Iso.

(** [isodate.parse_duration(s).total_seconds()], in microseconds.
    Modelled on the period grammar [sign? P nY nM nW nD T nH nM nS] with
    whole-number fields and no years or months, where the outcome is a
    [timedelta]; text that does not begin a period is an
    [ISO8601Error]; every other period (fractions, years and months,
    the alternative date-and-time form) is left to [isodate_other]. *)
Definition parse_duration (w : world) (s : string) : result Z :=
  match Iso.designators s with
  | Some (neg, st) =>
      if (Iso.years st =? 0) && (Iso.months st =? 0) then
        let secs := Iso.whole_seconds st in
        if Iso.in_timedelta_range secs
           && Iso.in_timedelta_range (if neg then - secs else secs)
        then Ok ((if neg then - secs else secs) * 1000000)
        else Raise (OverflowError "days out of range for timedelta")
      else isodate_other w s
  | None =>
      if starts_with "P" (snd (strip_sign s))
      then isodate_other w s
      else Raise (ISO8601Error ("Unable to parse duration string '" ++ s ++ "'"))
  end.

(** [is_longform]: at least 180 seconds; any exception of the parser is
    answered with [False]. *)
Definition is_longform (w : world) (iso_duration : string) : result bool :=
  try_except
    (duration <~ parse_duration w iso_duration ;;
     Ok (180 * 1000000 <=? duration))%result
    (fun _ => Ok false).

(* ===================================================================== *)
(** * Requests: the log of upstream calls *)
(* ===================================================================== *)

(** Code that talks to the services returns, raises, or is still in the
    pagination loop when the bound on the number of pages is reached. *)
Inductive outcome (A : Type) : Type :=
| Returns (a : A)
| Raises (e : exn)
| OutOfFuel.
Arguments Returns {A} a.
Arguments Raises {A} e.
Arguments OutOfFuel {A}.

(** The requests sent, in order, and how the computation ended. *)
Definition M (A : Type) : Type := (list call * outcome A)%type.

Definition ret {A} (a : A) : M A := ([], Returns a).

Definition raise {A} (e : exn) : M A := ([], Raises e).

Definition bind {A B} (m : M A) (k : A -> M B) : M B :=
  match m with
  | (l, Returns a) => let (l', o) := k a in ((l ++ l')%list, o)
  | (l, Raises e) => (l, Raises e)
  | (l, OutOfFuel) => (l, OutOfFuel)
  end.

Definition lift {A} (r : result A) : M A :=
  match r with
  | Ok a => ret a
  | Raise e => raise e
  end.

(** One request: it is logged, and its answer decides the outcome. *)
Definition request {A} (c : call) (answer : result A) : M A :=
  match answer with
  | Ok a => ([c], Returns a)
  | Raise e => ([c], Raises e)
  end.

(** [try: m  except Exception as e: h e] around requests. *)
Definition catch {A} (m : M A) (h : exn -> M A) : M A :=
  match m with
  | (l, Raises e) => let (l', o) := h e in ((l ++ l')%list, o)
  | _ => m
  end.

Declare Scope M_scope.
Delimit Scope M_scope with M.
Notation "x <- m ;; k" := (bind m (fun x => k))
  (at level 61, m at next level, right associativity) : M_scope.
Notation "' p <- m ;; k" := (bind m (fun x => match x with p => k end))
  (at level 61, p pattern, m at next level, right associativity) : M_scope.

Definition calls {A} (m : M A) : list call := fst m.
Definition outcome_of {A} (m : M A) : outcome A := snd m.

(** Writes to the table store, among the requests. *)
Definition is_patch (c : call) : bool :=
  match c with
  | AirtablePatch _ _ _ => true
  | _ => false
  end.

(** Python truthiness of an optional string: [None] and [""] are false. *)
Definition truthy (o : option string) : bool :=
  match o with
  | Some s => negb (String.eqb s "")
  | None => false
  end.

(** [d[key]] on a mapping. *)
Definition subscript {A} (key : string) (o : option A) : result A :=
  match o with
  | Some a => Ok a
  | None => Raise (KeyError key)
  end.

(* ===================================================================== *)
(** * Table-store and video-platform clients *)
(* ===================================================================== *)

(** [get_airtable_record]: the answer of the table store is taken to
    carry the field mapping of the record. *)
Definition get_airtable_record (w : world) (table_name record_id : string)
  : M fields :=
  request (AirtableGet table_name record_id) (airtable_get w table_name record_id).

Definition update_airtable_record (w : world) (table_name record_id : string)
  (payload : averages) : M unit :=
  request (AirtablePatch table_name record_id payload)
          (airtable_patch w table_name record_id payload).

Definition get_uploads_playlist_id (w : world) (channel_id : string)
  : M (option string) :=
  (found <- request (YouTubeChannels channel_id) (youtube_channels w channel_id) ;;
   match found with
   | [] => ret None
   | first :: _ => u <- lift (subscript "uploads" (uploads first)) ;; ret (Some u)
   end)%M.

(** [published_at >= cutoff_date], the cutoff being time-zone aware. *)
Definition datetime_ge (a cutoff : datetime) : result bool :=
  if Bool.eqb (aware a) (aware cutoff)
  then Ok (instant cutoff <=? instant a)
  else Raise (TypeError "can't compare offset-naive and offset-aware datetimes").

(** The [for item in data.get('items', [])] loop of one page: the
    identifiers accumulated so far and the flag [found_recent]. *)
Fixpoint scan_items (w : world) (cutoff_date : datetime)
  (its : list playlist_item) (video_ids : list string) (found_recent : bool)
  : result (list string * bool) :=
  match its with
  | [] => Ok (video_ids, found_recent)
  | item :: rest =>
      (raw <~ subscript "videoPublishedAt" (videoPublishedAt item) ;;
       published_at <~ dateutil_parse w raw ;;
       recent <~ datetime_ge published_at cutoff_date ;;
       if (recent : bool) then
         vid <~ subscript "videoId" (videoId item) ;;
         scan_items w cutoff_date rest (video_ids ++ [vid])%list true
       else scan_items w cutoff_date rest video_ids found_recent)%result
  end.

(** The [while True] loop of [get_recent_video_ids]; [fuel] bounds the
    number of pages requested. *)
Fixpoint get_recent_video_ids_loop (fuel : nat) (w : world)
  (playlist_id : string) (cutoff_date : datetime)
  (video_ids : list string) (next_page : option string) : M (list string) :=
  match fuel with
  | O => ([], OutOfFuel)
  | S fuel' =>
      let pageToken := if truthy next_page then next_page else None in
      (data <- request (YouTubePlaylistItems playlist_id pageToken)
                       (youtube_playlist_items w playlist_id pageToken) ;;
       '(video_ids', found_recent) <-
          lift (scan_items w cutoff_date (items data) video_ids false) ;;
       if negb found_recent then ret video_ids'
       else
         let next_page' := nextPageToken data in
         if negb (truthy next_page') then ret video_ids'
         else get_recent_video_ids_loop fuel' w playlist_id cutoff_date
                video_ids' next_page')%M
  end.

Definition get_recent_video_ids (fuel : nat) (w : world)
  (playlist_id : string) (cutoff_date : datetime) : M (list string) :=
  get_recent_video_ids_loop fuel w playlist_id cutoff_date [] None.

(** What the loop reads off a well-formed playlist item: the instant of
    publication, carrying a time zone, and the identifier. *)
Definition shows (w : world) (item : playlist_item) (seen : Z * string) : Prop :=
  exists raw,
    videoPublishedAt item = Some raw /\
    dateutil_parse w raw = Ok {| instant := fst seen; aware := true |} /\
    videoId item = Some (snd seen).

(** The identifiers published at or after the cutoff, in page order. *)
Definition recent (cutoff : Z) (seen : list (Z * string)) : list string :=
  map snd (filter (fun p => cutoff <=? fst p) seen).

(** The pages the loop goes through from a given page token on, each
    with the token it was requested with and the identifiers it
    contributes.  The walk ends at the first page that contributes
    nothing ([walk_old], whatever its [nextPageToken]) or that
    announces no further page ([walk_last]). *)
Inductive walk (w : world) (playlist_id : string) (cutoff : Z)
  : option string -> list (option string * list string) -> Prop :=
| walk_old token p seen :
    youtube_playlist_items w playlist_id token = Ok p ->
    Forall2 (shows w) (items p) seen ->
    recent cutoff seen = [] ->
    walk w playlist_id cutoff token [(token, [])]
| walk_last token p seen :
    youtube_playlist_items w playlist_id token = Ok p ->
    Forall2 (shows w) (items p) seen ->
    recent cutoff seen <> [] ->
    truthy (nextPageToken p) = false ->
    walk w playlist_id cutoff token [(token, recent cutoff seen)]
| walk_more token p seen rest :
    youtube_playlist_items w playlist_id token = Ok p ->
    Forall2 (shows w) (items p) seen ->
    recent cutoff seen <> [] ->
    truthy (nextPageToken p) = true ->
    walk w playlist_id cutoff (nextPageToken p) rest ->
    walk w playlist_id cutoff token ((token, recent cutoff seen) :: rest).

(** [range(0, n, 50)] *)
Definition range_by_50 (n : nat) : list nat :=
  map (fun k => (50 * k)%nat) (seq 0 ((n + 49) / 50)).

(** [l[i:j]] for [0 <= i <= j] *)
Definition slice {A} (l : list A) (i j : nat) : list A :=
  firstn (j - i) (skipn i l).

(** The [for i in range(0, len(video_ids), 50)] loop; the request
    carries the batch (on the wire, its identifiers joined by commas). *)
Fixpoint stats_batches (w : world) (video_ids : list string)
  (starts : list nat) (stats_acc : list video) : M (list video) :=
  match starts with
  | [] => ret stats_acc
  | i :: starts' =>
      let batch := slice video_ids i (i + 50) in
      (found <- request (YouTubeVideos batch) (youtube_videos w batch) ;;
       stats_batches w video_ids starts' (stats_acc ++ found)%list)%M
  end.

Definition get_video_stats_batch (w : world) (video_ids : list string)
  : M (list video) :=
  stats_batches w video_ids (range_by_50 (List.length video_ids)) [].

(** The batches the loop of [get_video_stats_batch] goes through. *)
Definition batches (video_ids : list string) : list (list string) :=
  map (fun i => slice video_ids i (i + 50)) (range_by_50 (List.length video_ids)).

(* ===================================================================== *)
(** * Averages: [int(sum(l) / len(l))] *)
(* ===================================================================== *)

(** Binary64: 53 bits of precision, exponents below 1024. *)
Definition prec : Z := 53.
Definition emax : Z := 1024.

(** An integer as an exact operand of the division. *)
Definition float_of_int (n : Z) : spec_float :=
  match n with
  | Z0 => S754_zero false
  | Zpos p => S754_finite false p 0
  | Zneg p => S754_finite true p 0
  end.

(** [a / b] on two [int]s: the quotient rounded to the nearest
    binary64, ties to even. *)
Definition true_div (a b : Z) : result spec_float :=
  if b =? 0 then Raise ZeroDivisionError
  else
    match SFdiv prec emax (float_of_int a) (float_of_int b) with
    | S754_infinity _ | S754_nan =>
        Raise (OverflowError "integer division result too large for a float")
    | q => Ok q
    end.

(** [int(x)] on a [float]: truncation toward zero. *)
Definition int_of_float (x : spec_float) : result Z :=
  match x with
  | S754_zero _ => Ok 0
  | S754_finite s m e =>
      let magnitude :=
        if 0 <=? e then Zpos m * 2 ^ e else Zpos m / 2 ^ (- e) in
      Ok (if s then - magnitude else magnitude)
  | S754_infinity _ =>
      Raise (OverflowError "cannot convert float infinity to integer")
  | S754_nan => Raise (ValueError "cannot convert float NaN to integer")
  end.

Definition py_sum (l : list Z) : Z := fold_left Z.add l 0.

Definition average (l : list Z) : result Z :=
  (q <~ true_div (py_sum l) (Z.of_nat (List.length l)) ;; int_of_float q)%result.

(** The sign of a quotient applied to its magnitude. *)
Definition signed (s : bool) (n : Z) : Z := if s then - n else n.

(** The position of a remainder [r] of a division by [d] relative to
    the midpoint, as the rounding code records it. *)
Definition loc_of (r d : Z) : location :=
  if r =? 0 then loc_Exact else loc_Inexact (2 * r ?= d).

(** A shift record holds the integer part of [N / D] together with the
    position of the remainder. *)
Definition denotes (N D : Z) (mrs : shr_record) : Prop :=
  shr_m mrs = N / D /\ loc_of_shr_record mrs = loc_of (N mod D) D.

(** [M] is an integer nearest to [N / D]. *)
Definition nearest (N D M : Z) : Prop :=
  N / D <= M <= N / D + 1 /\ 2 * N - D <= 2 * D * M <= 2 * N + D.

(* ===================================================================== *)
(** * Collecting the metrics of the long-form videos *)
(* ===================================================================== *)

Record metrics := {
  longform_views : list Z;
  longform_likes : list Z;
  longform_comments : list Z
}.

Definition no_metrics : metrics :=
  {| longform_views := []; longform_likes := []; longform_comments := [] |}.

(** The three lists are mutated in place: a statement of the [try]
    block takes the lists as they are and leaves them as it made them,
    whether it completes or raises. *)
Definition block (A : Type) : Type := metrics -> metrics * result A.

Definition bseq {A B} (m : block A) (k : A -> block B) : block B :=
  fun st =>
    match m st with
    | (st', Ok a) => k a st'
    | (st', Raise e) => (st', Raise e)
    end.

Definition bpure {A} (r : result A) : block A := fun st => (st, r).

Definition append_views (n : Z) : block unit := fun st =>
  ({| longform_views := (longform_views st ++ [n])%list;
      longform_likes := longform_likes st;
      longform_comments := longform_comments st |}, Ok tt).

Definition append_likes (n : Z) : block unit := fun st =>
  ({| longform_views := longform_views st;
      longform_likes := (longform_likes st ++ [n])%list;
      longform_comments := longform_comments st |}, Ok tt).

Definition append_comments (n : Z) : block unit := fun st =>
  ({| longform_views := longform_views st;
      longform_likes := longform_likes st;
      longform_comments := (longform_comments st ++ [n])%list |}, Ok tt).

Definition no_stats : stats :=
  {| viewCount := None; likeCount := None; commentCount := None |}.

(** The body of the [try] for one video. *)
Definition collect_try (w : world) (v : video) : block unit :=
  bseq (bpure (subscript "duration" (duration v))) (fun d =>
  bseq (bpure (is_longform w d)) (fun long =>
  if (long : bool) then
    let st := match statistics v with Some s => s | None => no_stats end in
    bseq (bpure (int_count w (viewCount st))) (fun n =>
    bseq (append_views n) (fun _ =>
    bseq (bpure (int_count w (likeCount st))) (fun n =>
    bseq (append_likes n) (fun _ =>
    bseq (bpure (int_count w (commentCount st))) (fun n =>
    append_comments n)))))
  else bpure (Ok tt))).

(** [try: ... except Exception: continue] *)
Definition collect_video (w : world) (v : video) : block unit :=
  fun st =>
    match collect_try w v st with
    | (st', Raise _) => (st', Ok tt)
    | done => done
    end.

(** [for video in video_stats] *)
Fixpoint collect_metrics (w : world) (video_stats : list video) : block unit :=
  match video_stats with
  | [] => bpure (Ok tt)
  | v :: rest => bseq (collect_video w v) (fun _ => collect_metrics w rest)
  end.

(* ===================================================================== *)
(** * The endpoint *)
(* ===================================================================== *)

Record entry := {
  influencerId : string;
  status : string;
  reason : option string
}.

Inductive body :=
| ErrorBody (error : string)
| MessageBody (message : string)
| ReportBody (message campaignRecordId : string) (results : list entry).

Record response := { status_code : Z; json : body }.

(** The JSON body of the request; [None] fields are absent keys. *)
Record request_json := {
  campaignRecordId : option string;
  campaignTableName : option string
}.

Definition influencer_table : string := "Influencers".

Definition failed (id why : string) : entry :=
  {| influencerId := id; status := "failed"; reason := Some why |}.

Definition skipped (id why : string) : entry :=
  {| influencerId := id; status := "skipped"; reason := Some why |}.

Definition success (id : string) : entry :=
  {| influencerId := id; status := "success"; reason := None |}.

(** One turn of the loop over the linked influencers: the entry it
    appends to [update_results]. *)
Definition process_influencer (fuel : nat) (w : world) (cutoff_date : datetime)
  (influencer_id : string) : M entry :=
  (fetched <-
     catch (f <- get_airtable_record w influencer_table influencer_id ;;
            ret (inl f))
           (fun e => ret (inr (failed influencer_id
                     ("Failed to fetch influencer record: " ++ exn_text e)))) ;;
   match fetched with
   | inr reported => ret reported
   | inl influencer_fields =>
       let channel_id := YouTube_Channel_ID influencer_fields in
       if negb (truthy channel_id) then
         ret (skipped influencer_id "No YouTube Channel ID")
       else
         playlist_id <- get_uploads_playlist_id w
                          (match channel_id with Some c => c | None => "" end) ;;
         if negb (truthy playlist_id) then
           ret (skipped influencer_id "No uploads playlist")
         else
           video_ids <- get_recent_video_ids fuel w
                          (match playlist_id with Some p => p | None => "" end)
                          cutoff_date ;;
           match video_ids with
           | [] => ret (skipped influencer_id "No recent videos")
           | _ =>
               video_stats <- get_video_stats_batch w video_ids ;;
               let collected := fst (collect_metrics w video_stats no_metrics) in
               match longform_views collected with
               | [] => ret (skipped influencer_id "No longform videos found")
               | _ =>
                   avg_views <- lift (average (longform_views collected)) ;;
                   avg_likes <- lift (average (longform_likes collected)) ;;
                   avg_comments <- lift (average (longform_comments collected)) ;;
                   catch
                     (_ <- update_airtable_record w influencer_table influencer_id
                             {| LGVPV90 := avg_views; LGLPV90 := avg_likes;
                                LGCPV90 := avg_comments |} ;;
                      ret (success influencer_id))
                     (fun e => ret (failed influencer_id
                                ("Failed to update Airtable: " ++ exn_text e)))
               end
           end
   end)%M.

(** [for influencer_id in linked_influencer_ids] *)
Fixpoint for_influencers (fuel : nat) (w : world) (cutoff_date : datetime)
  (linked_influencer_ids : list string) (update_results : list entry)
  : M (list entry) :=
  match linked_influencer_ids with
  | [] => ret update_results
  | influencer_id :: rest =>
      (reported <- process_influencer fuel w cutoff_date influencer_id ;;
       for_influencers fuel w cutoff_date rest (update_results ++ [reported])%list)%M
  end.

Definition ninety_days : Z := 90 * 86400 * 1000000.

Definition update_engagement_for_campaign (fuel : nat) (w : world)
  (data : option request_json) : M response :=
  match match data with Some d => campaignRecordId d | None => None end with
  | None =>
      ret {| status_code := 400;
             json := ErrorBody "Missing 'campaignRecordId' in request body" |}
  | Some campaign_record_id =>
      let campaign_table :=
        match match data with Some d => campaignTableName d | None => None end with
        | Some t => t
        | None => "Campaigns"
        end in
      (fetched <-
         catch (f <- get_airtable_record w campaign_table campaign_record_id ;;
                ret (inl f))
               (fun e => ret (inr
                  {| status_code := 500;
                     json := ErrorBody ("Failed to fetch campaign record: "
                                        ++ exn_text e) |})) ;;
       match fetched with
       | inr answer => ret answer
       | inl campaign_fields =>
           let linked_influencer_ids :=
             match Creator campaign_fields with Some l => l | None => [] end in
           match linked_influencer_ids with
           | [] =>
               ret {| status_code := 200;
                      json := MessageBody
                                "No linked influencers found for this campaign." |}
           | _ =>
               let cutoff_date :=
                 {| instant := utcnow w - ninety_days; aware := true |} in
               update_results <-
                 for_influencers fuel w cutoff_date linked_influencer_ids [] ;;
               ret {| status_code := 200;
                      json := ReportBody "Engagement update complete."
                                campaign_record_id update_results |}
           end
       end)%M
  end.

(** The three values of the [status] key of a report entry. *)
Definition known_status (e : entry) : Prop :=
  In (status e) ["success"; "skipped"; "failed"].

(** The table a request names, ["Campaigns"] unless it says otherwise. *)
Definition campaign_table_of (d : request_json) : string :=
  match campaignTableName d with
  | Some t => t
  | None => "Campaigns"
  end.

(** The influencers a campaign record links: [fields.get('Creator', [])]. *)
Definition linked_influencers (f : fields) : list string :=
  match Creator f with
  | Some l => l
  | None => []
  end.

(** An influencer whose record cannot be read, or has no channel id:
    its turn of the loop ends at the read of the record. *)
Definition settled_at_fetch (w : world) (id : string) : Prop :=
  (exists e, airtable_get w influencer_table id = Raise e) \/
  (exists f, airtable_get w influencer_table id = Ok f /\
             truthy (YouTube_Channel_ID f) = false).

Definition failed_or_skipped (e : entry) : Prop :=
  status e = "failed" \/ status e = "skipped".

(** The clock of a request less ninety days, in UTC. *)
Definition cutoff_of (w : world) : datetime :=
  {| instant := utcnow w - ninety_days; aware := true |}.

(* ===================================================================== *)
(** * A sample deployment *)
(* ===================================================================== *)

(** A table store with three campaigns and three influencers, and a
    video platform with one channel that has uploads, used to run the
    endpoint on concrete requests. *)
Module Sample.

Fixpoint assoc {A} (k : string) (l : list (string * A)) : option A :=
  match l with
  | [] => None
  | (k', a) :: rest => if String.eqb k k' then Some a else assoc k rest
  end.

Definition http_error (text : string) : exn := Exn "HTTPError" text.

Definition not_found {A} : result A :=
  Raise (http_error "404 Client Error: Not Found").

Definition campaign (linked : option (list string)) : fields :=
  {| Creator := linked; YouTube_Channel_ID := None |}.

Definition influencer (channel : option string) : fields :=
  {| Creator := None; YouTube_Channel_ID := channel |}.

Definition campaigns : list (string * fields) :=
  [ ("campOne", campaign (Some ["recA"]));
    ("campTwo", campaign (Some ["recC"; "recB"]));
    ("campThree", campaign (Some ["recB"; "recD"; "recE"]));
    ("campEmpty", campaign (Some []));
    ("campBare", campaign None) ].

Definition influencers : list (string * fields) :=
  [ ("recA", influencer (Some "UC_A"));
    ("recB", influencer None);
    ("recC", influencer (Some "UC_C"));
    ("recE", influencer (Some "")) ].

(** Instants, in microseconds since the epoch. *)
Definition now : Z := 1793750400000000.          (* 2026-11-04T00:00:00Z *)
Definition october : Z := 1790812800000000.      (* 2026-10-01T00:00:00Z *)
Definition september : Z := 1788220800000000.    (* 2026-09-01T00:00:00Z *)
Definition last_year : Z := 1759276800000000.    (* 2025-10-01T00:00:00Z *)

Definition dates : list (string * Z) :=
  [ ("2026-10-01T00:00:00Z", october);
    ("2026-09-01T00:00:00Z", september);
    ("2025-10-01T00:00:00Z", last_year) ].

Definition upload (published id : string) : playlist_item :=
  {| videoPublishedAt := Some published; videoId := Some id |}.

(** The uploads of channel [UC_A]: a first page of recent videos, a
    second page of old ones that still announces a third page. *)
Definition page_one : page :=
  {| items := [ upload "2026-10-01T00:00:00Z" "vid1";
                upload "2026-09-01T00:00:00Z" "vid2";
                upload "2026-09-01T00:00:00Z" "vid3" ];
     nextPageToken := Some "tok2" |}.

Definition page_two : page :=
  {| items := [ upload "2025-10-01T00:00:00Z" "vid4" ];
     nextPageToken := Some "tok3" |}.

Definition page_three : page :=
  {| items := [ upload "2026-10-01T00:00:00Z" "vid5" ];
     nextPageToken := None |}.

Definition counted (length_text views likes comments : string) : video :=
  {| duration := Some length_text;
     statistics := Some {| viewCount := Some views; likeCount := Some likes;
                           commentCount := Some comments |} |}.

Definition videos : list (string * video) :=
  [ ("vid1", counted "PT10M" "100" "10" "1");
    ("vid2", counted "PT3M0S" "200" "20" "3");
    ("vid3", counted "PT59S" "5000" "500" "50") ].

Fixpoint lookup_all {A} (ks : list string) (l : list (string * A)) : list A :=
  match ks with
  | [] => []
  | k :: ks' =>
      match assoc k l with
      | Some a => a :: lookup_all ks' l
      | None => lookup_all ks' l
      end
  end.

Definition deployment : world := {|
  airtable_get := fun table id =>
    match assoc id (if String.eqb table "Campaigns" then campaigns
                    else if String.eqb table "Influencers" then influencers
                    else []) with
    | Some f => Ok f
    | None => not_found
    end;
  airtable_patch := fun _ _ _ => Ok tt;
  youtube_channels := fun channel =>
    if String.eqb channel "UC_A" then Ok [ {| uploads := Some "UU_A" |} ]
    else if String.eqb channel "UC_C"
    then Raise (http_error "403 Client Error: Forbidden")
    else Ok [];
  youtube_playlist_items := fun playlist token =>
    if String.eqb playlist "UU_A" then
      match token with
      | None => Ok page_one
      | Some t => if String.eqb t "tok2" then Ok page_two
                  else if String.eqb t "tok3" then Ok page_three
                  else Raise (http_error "400 Client Error: Bad Request")
      end
    else not_found;
  youtube_videos := fun batch => Ok (lookup_all batch videos);
  dateutil_parse := fun text =>
    match assoc text dates with
    | Some t => Ok {| instant := t; aware := true |}
    | None => Raise (ValueError ("Unknown string format: " ++ text))
    end;
  isodate_other := fun text =>
    Raise (ISO8601Error ("Unable to parse duration string '" ++ text ++ "'"));
  int_other := fun text =>
    Raise (ValueError ("invalid literal for int() with base 10: '" ++ text ++ "'"));
  utcnow := now
|}.

Definition post (id : string) : option request_json :=
  Some {| campaignRecordId := Some id; campaignTableName := None |}.

(** A video whose like count is not a number. *)
Definition odd_likes : video := counted "PT5M" "20" "n/a" "4".

End Sample.

(* ===================================================================== *)
(** * Notions used to state further properties *)
(* ===================================================================== *)

(** The value of the [id] parameter of a videos request: the
    identifiers of the batch joined by commas. *)
Definition id_param (batch : list string) : string := String.concat "," batch.

Definition has_no_comma (s : string) : Prop :=
  all_chars (fun c => negb (Ascii.eqb c ",")) s = true.

(** Reading an [id] parameter back: the fields between the commas. *)
Fixpoint split_commas (s : string) : list string :=
  match s with
  | EmptyString => [EmptyString]
  | String c rest =>
      if Ascii.eqb c "," then EmptyString :: split_commas rest
      else
        match split_commas rest with
        | field :: fields => String c field :: fields
        | [] => [String c EmptyString]
        end
  end.

(** A video that the loop counts: it has a duration and [is_longform]
    answers [True] for it. *)
Definition counted_as_long (w : world) (v : video) : bool :=
  match duration v with
  | Some d =>
      match is_longform w d with
      | Ok b => b
      | Raise _ => false
      end
  | None => false
  end.

(** [video.get('statistics', {})] *)
Definition statistics_of (v : video) : stats :=
  match statistics v with
  | Some s => s
  | None => no_stats
  end.

(** The three counts of a video all pass [int]. *)
Definition counts_parse (w : world) (v : video) (n : Z * Z * Z) : Prop :=
  int_count w (viewCount (statistics_of v)) = Ok (fst (fst n)) /\
  int_count w (likeCount (statistics_of v)) = Ok (snd (fst n)) /\
  int_count w (commentCount (statistics_of v)) = Ok (snd n).

(** One turn of the loop over the influencers, as the pass sees it: the
    requests it sent and the entry it reported. *)
Definition turn_of (fuel : nat) (w : world) (cutoff_date : datetime)
  (id : string) (t : list call * entry) : Prop :=
  process_influencer fuel w cutoff_date id = (fst t, Returns (snd t)).

(** A second deployment, with one influencer for each way a turn of
    the loop can end. *)
Module Cases.

Definition influencers : list (string * fields) :=
  [ ("recFine", Sample.influencer (Some "UC_F"));
    ("recNoList", Sample.influencer (Some "UC_N"));
    ("recQuiet", Sample.influencer (Some "UC_Q"));
    ("recShort", Sample.influencer (Some "UC_S"));
    ("recLocked", Sample.influencer (Some "UC_L"));
    ("recOdd", Sample.influencer (Some "UC_O"));
    ("recDown", Sample.influencer (Some "UC_D")) ].

Definition campaigns : list (string * fields) :=
  [ ("campMixed", Sample.campaign (Some ["recNoList"; "recLocked"; "recFine"]));
    ("campDown", Sample.campaign (Some ["recFine"; "recDown"; "recQuiet"]));
    ("campOdd", Sample.campaign (Some ["recOdd"])) ].

Definition playlists : list (string * string) :=
  [ ("UC_F", "UU_F"); ("UC_Q", "UU_Q"); ("UC_S", "UU_S");
    ("UC_L", "UU_L"); ("UC_O", "UU_O") ].

Definition single_page (its : list playlist_item) : page :=
  {| items := its; nextPageToken := None |}.

Definition pages : list (string * page) :=
  [ ("UU_F", single_page [ Sample.upload "2026-10-01T00:00:00Z" "f1";
                           Sample.upload "2026-09-01T00:00:00Z" "f2" ]);
    ("UU_Q", single_page [ Sample.upload "2025-10-01T00:00:00Z" "q1" ]);
    ("UU_S", single_page [ Sample.upload "2026-10-01T00:00:00Z" "s1" ]);
    ("UU_L", single_page [ Sample.upload "2026-10-01T00:00:00Z" "l1" ]);
    ("UU_O", single_page [ Sample.upload "2026-10-01T00:00:00Z" "o1" ]) ].

Definition videos : list (string * video) :=
  [ ("f1", Sample.counted "PT10M" "100" "10" "1");
    ("f2", Sample.counted "PT4M" "200" "20" "3");
    ("s1", Sample.counted "PT30S" "900" "90" "9");
    ("l1", Sample.counted "PT10M" "7" "7" "7");
    ("o1", Sample.counted "PT5M" "20" "n/a" "4") ].

Definition unprocessable : exn :=
  Sample.http_error "422 Client Error: Unprocessable Entity".

Definition unavailable : exn :=
  Sample.http_error "503 Server Error: Service Unavailable".

Definition deployment : world := {|
  airtable_get := fun table id =>
    match Sample.assoc id (if String.eqb table "Campaigns" then campaigns
                           else if String.eqb table "Influencers" then influencers
                           else []) with
    | Some f => Ok f
    | None => Sample.not_found
    end;
  airtable_patch := fun _ id _ =>
    if String.eqb id "recLocked" then Raise unprocessable else Ok tt;
  youtube_channels := fun channel =>
    if String.eqb channel "UC_D" then Raise unavailable
    else match Sample.assoc channel playlists with
         | Some p => Ok [ {| uploads := Some p |} ]
         | None => Ok []
         end;
  youtube_playlist_items := fun playlist _ =>
    match Sample.assoc playlist pages with
    | Some p => Ok p
    | None => Sample.not_found
    end;
  youtube_videos := fun batch =>
    if existsb (String.eqb "gone") batch then Raise unavailable
    else Ok (Sample.lookup_all batch videos);
  dateutil_parse := dateutil_parse Sample.deployment;
  isodate_other := isodate_other Sample.deployment;
  int_other := int_other Sample.deployment;
  utcnow := Sample.now
|}.

Definition cutoff : datetime := cutoff_of deployment.

End Cases.

(** The address of a record of the table store:
    [f"{AIRTABLE_BASE_URL}/{table_name}/{record_id}"]. *)
Definition airtable_base_url (base_id : string) : string :=
  "https://api.airtable.com/v0/" ++ base_id.

Definition record_url (base_id table_name record_id : string) : string :=
  airtable_base_url base_id ++ "/" ++ table_name ++ "/" ++ record_id.

Definition has_no_slash (s : string) : Prop :=
  all_chars (fun c => negb (Ascii.eqb c "/")) s = true.

(* ===================================================================== *)
(** * Binary64 division of integers *)
(* ===================================================================== *)

(** The quotient of two integers is computed by [SFdiv] as a shifted
    integer division followed by a rounding to 53 bits.  The lemmas
    below follow the remainder through the shifts and bound the rounded
    mantissa, which is what relates [int(a / b)] to the integer
    quotient. *)
Module Binary64.

Lemma new_location_loc_of d r :
0 <= r < d -> new_location d r = loc_of r d.
Proof.
intros Hr. unfold new_location, new_location_even, new_location_odd, loc_of.
destruct (Z.even d) eqn:Ev; [reflexivity|].
destruct (r =? 0); [reflexivity|].
f_equal.
assert (Hodd : Z.odd d = true) by (rewrite <- Z.negb_even, Ev; reflexivity).
apply Z.odd_spec in Hodd. destruct Hodd as [h Hh].
destruct (Z.compare_spec (2 * r + 1) d), (Z.compare_spec (2 * r) d);
  try reflexivity; lia.
Qed.

Lemma loc_of_record m l : loc_of_shr_record (shr_record_of_loc m l) = l.
Proof. destruct l as [|[ | | ]]; reflexivity. Qed.

Lemma shr_m_record m l : shr_m (shr_record_of_loc m l) = m.
Proof. destruct l as [|[ | | ]]; reflexivity. Qed.

Lemma loc_of_cases r d :
0 <= r < d ->
(r = 0 /\ loc_of r d = loc_Exact) \/
(0 < r /\ 2 * r < d /\ loc_of r d = loc_Inexact Lt) \/
(0 < r /\ 2 * r = d /\ loc_of r d = loc_Inexact Eq) \/
(0 < r /\ 2 * r > d /\ loc_of r d = loc_Inexact Gt).
Proof.
intros H. unfold loc_of.
destruct (Z.eqb_spec r 0); [left; auto|].
right. destruct (Z.compare_spec (2 * r) d); intuition lia.
Qed.

Lemma div_mod_double N D :
0 <= N -> 0 < D ->
N / (2 * D) = (N / D) / 2 /\
N mod (2 * D) = ((N / D) mod 2) * D + N mod D.
Proof.
intros HN HD.
pose proof (Z.div_mod N D ltac:(lia)) as E.
pose proof (Z.mod_pos_bound N D HD) as B.
pose proof (Z.div_mod (N / D) 2 ltac:(lia)) as E2.
pose proof (Z.mod_pos_bound (N / D) 2 ltac:(lia)) as B2.
assert (Hq : N = (2 * D) * ((N / D) / 2) + (((N / D) mod 2) * D + N mod D)) by nia.
assert (Hr : 0 <= ((N / D) mod 2) * D + N mod D < 2 * D) by nia.
split.
- symmetry. apply (Z.div_unique_pos N (2 * D) _ _ Hr Hq).
- symmetry. apply (Z.mod_unique_pos N (2 * D) _ _ Hr Hq).
Qed.

Lemma shr_1_denotes N D mrs :
0 <= N -> 0 < D -> denotes N D mrs -> denotes N (2 * D) (shr_1 mrs).
Proof.
intros HN HD [Hm Hl].
destruct (div_mod_double N D HN HD) as [Eq Er].
pose proof (Z.mod_pos_bound N D HD) as B.
pose proof (Z.div_pos N D HN HD) as Q.
assert (B' : 0 <= N mod (2 * D) < 2 * D) by (apply Z.mod_pos_bound; lia).
unfold denotes. rewrite Eq.
destruct mrs as [m r s]. simpl in Hm, Hl. subst m.
assert (Hrs : orb r s = negb (N mod D =? 0)).
{ destruct (loc_of_cases _ _ B) as [[E L]|[[? [? L]]|[[? [? L]]|[? [? L]]]]];
    rewrite L in Hl; destruct r, s; simpl in Hl; try discriminate;
    simpl; symmetry; try (rewrite E; reflexivity);
    apply negb_true_iff, Z.eqb_neq; lia. }
destruct (N / D) as [|p|p] eqn:Eqv; [| |lia].
- cbn [shr_1 shr_m loc_of_shr_record]. change (0 mod 2) with 0 in Er. split; [reflexivity|].
  unfold loc_of. rewrite Er, Z.mul_0_l, Z.add_0_l.
  rewrite Hrs.
  destruct (Z.eqb_spec (N mod D) 0); cbn [negb]; [reflexivity|].
  f_equal. symmetry. apply Z.compare_lt_iff. lia.
- assert (Hodd : Z.pos p mod 2 = 0 \/ Z.pos p mod 2 = 1)
    by (pose proof (Z.mod_pos_bound (Z.pos p) 2); lia).
  destruct p as [p|p|].
  + (* odd *)
    assert (E1 : Z.pos p~1 mod 2 = 1) by (rewrite Pos2Z.inj_xI, Z.add_comm, Z.mul_comm, Z.mod_add; [reflexivity|lia]).
    assert (E2 : Z.pos p~1 / 2 = Z.pos p) by (rewrite Pos2Z.inj_xI, Z.add_comm, Z.mul_comm, Z.div_add; [reflexivity|lia]).
    rewrite E1 in Er. rewrite E2. cbn [shr_1 shr_m loc_of_shr_record]. split; [reflexivity|].
    unfold loc_of. rewrite Er.
    destruct (Z.eqb_spec (1 * D + N mod D) 0); [lia|].
    rewrite Hrs. destruct (Z.eqb_spec (N mod D) 0); cbn [negb]; f_equal; symmetry.
    * apply Z.compare_eq_iff. lia.
    * apply Z.compare_gt_iff. lia.
  + assert (E1 : Z.pos p~0 mod 2 = 0) by (rewrite Pos2Z.inj_xO, Z.mul_comm, Z.mod_mul; [reflexivity|lia]).
    assert (E2 : Z.pos p~0 / 2 = Z.pos p) by (rewrite Pos2Z.inj_xO, Z.mul_comm, Z.div_mul; [reflexivity|lia]).
    rewrite E1 in Er. rewrite E2. cbn [shr_1 shr_m loc_of_shr_record]. split; [reflexivity|].
    unfold loc_of. rewrite Er, Z.mul_0_l, Z.add_0_l.
    rewrite Hrs.
    destruct (Z.eqb_spec (N mod D) 0); cbn [negb]; [reflexivity|].
    f_equal. symmetry. apply Z.compare_lt_iff. lia.
  + change (1 mod 2) with 1 in Er. change (1 / 2) with 0. cbn [shr_1 shr_m loc_of_shr_record].
    split; [reflexivity|].
    unfold loc_of. rewrite Er.
    destruct (Z.eqb_spec (1 * D + N mod D) 0); [lia|].
    rewrite Hrs. destruct (Z.eqb_spec (N mod D) 0); cbn [negb]; f_equal; symmetry.
    * apply Z.compare_eq_iff. lia.
    * apply Z.compare_gt_iff. lia.
Qed.

Lemma pow2_xO p : 2 ^ Z.pos p~0 = 2 ^ Z.pos p * 2 ^ Z.pos p.
Proof.
replace (Z.pos p~0) with (Z.pos p + Z.pos p) by lia.
apply Z.pow_add_r; lia.
Qed.

Lemma pow2_xI p : 2 ^ Z.pos p~1 = 2 * (2 ^ Z.pos p * 2 ^ Z.pos p).
Proof.
replace (Z.pos p~1) with (1 + (Z.pos p + Z.pos p)) by lia.
rewrite Z.pow_add_r, Z.pow_add_r by lia. reflexivity.
Qed.

Lemma iter_pos_denotes p : forall N D mrs,
0 <= N -> 0 < D -> denotes N D mrs ->
denotes N (D * 2 ^ Z.pos p) (iter_pos shr_1 p mrs).
Proof.
induction p as [p IH|p IH|]; intros N D mrs HN HD H; cbn [iter_pos].
- apply shr_1_denotes in H; try assumption.
  apply IH in H; try lia. apply IH in H; try nia.
  replace (D * 2 ^ Z.pos p~1) with (2 * D * 2 ^ Z.pos p * 2 ^ Z.pos p); [exact H|].
  rewrite pow2_xI. ring.
- apply IH in H; try lia. apply IH in H; try nia.
  replace (D * 2 ^ Z.pos p~0) with (D * 2 ^ Z.pos p * 2 ^ Z.pos p); [exact H|].
  rewrite pow2_xO. ring.
- rewrite Z.pow_1_r, Z.mul_comm. apply shr_1_denotes; assumption.
Qed.

Lemma shr_denotes N D mrs e n :
0 <= N -> 0 < D -> denotes N D mrs ->
snd (shr mrs e n) = e + Z.max 0 n /\
denotes N (D * 2 ^ Z.max 0 n) (fst (shr mrs e n)).
Proof.
intros HN HD H. destruct n as [|p|p]; cbn [shr fst snd].
- rewrite Z.max_id, Z.add_0_r, Z.pow_0_r, Z.mul_1_r. auto.
- rewrite Z.max_r by lia. split; [reflexivity|].
  apply iter_pos_denotes; assumption.
- rewrite Z.max_l by lia. rewrite Z.add_0_r, Z.pow_0_r, Z.mul_1_r. auto.
Qed.

Lemma round_nearest_even_nearest N D mrs :
0 <= N -> 0 < D -> denotes N D mrs ->
nearest N D (round_nearest_even (shr_m mrs) (loc_of_shr_record mrs)).
Proof.
intros HN HD [Hm Hl]. rewrite Hm, Hl.
pose proof (Z.div_mod N D ltac:(lia)) as E.
pose proof (Z.mod_pos_bound N D HD) as B.
unfold nearest.
destruct (loc_of_cases _ _ B) as [[E0 L]|[[? [? L]]|[[? [? L]]|[? [? L]]]]];
  rewrite L; cbn [round_nearest_even];
  try destruct (Z.even (N / D)); nia.
Qed.

Lemma digits2_pos_bounds p :
2 ^ (Z.pos (digits2_pos p) - 1) <= Z.pos p < 2 ^ Z.pos (digits2_pos p).
Proof.
induction p as [p IH|p IH|]; cbn [digits2_pos].
- rewrite Pos2Z.inj_succ. replace (Z.succ (Z.pos (digits2_pos p)) - 1)
    with (Z.succ (Z.pos (digits2_pos p) - 1)) by lia.
  rewrite !Z.pow_succ_r by lia. lia.
- rewrite Pos2Z.inj_succ. replace (Z.succ (Z.pos (digits2_pos p)) - 1)
    with (Z.succ (Z.pos (digits2_pos p) - 1)) by lia.
  rewrite !Z.pow_succ_r by lia. lia.
- change (2 ^ (1 - 1)) with 1. change (2 ^ 1) with 2. lia.
Qed.

Lemma Zdigits2_le m j :
0 <= j -> 0 <= m < 2 ^ j -> Zdigits2 m <= j.
Proof.
intros Hj [H0 Hm]. destruct m as [|p|p]; cbn [Zdigits2]; [lia| |lia].
pose proof (digits2_pos_bounds p) as [Hlo _].
assert (2 ^ (Z.pos (digits2_pos p) - 1) < 2 ^ j) by lia.
apply Z.pow_lt_mono_r_iff in H; lia.
Qed.

Lemma fexp_eq x : fexp prec emax x = Z.max (x - 53) (-1074).
Proof. reflexivity. Qed.

Lemma div_eucl_div_mod x y : Z.div_eucl x y = (x / y, x mod y).
Proof. unfold Z.div, Z.modulo. destruct (Z.div_eucl x y). reflexivity. Qed.

Lemma core_spec (a b : positive) :
let e0 := Z.min (fexp prec emax (Zdigits2 (Z.pos a) - Zdigits2 (Z.pos b))) 0 in
e0 < 0 ->
SFdiv_core_binary prec emax (Z.pos a) 0 (Z.pos b) 0 =
  ((Z.pos a * 2 ^ (- e0)) / Z.pos b, e0,
   loc_of ((Z.pos a * 2 ^ (- e0)) mod Z.pos b) (Z.pos b)).
Proof.
intros e0 He0. unfold SFdiv_core_binary.
rewrite !Z.add_0_r. change (0 - 0) with 0. fold e0.
replace (0 - e0) with (- e0) by lia.
destruct (- e0) as [|p|p] eqn:E; try lia.
rewrite Z.shiftl_mul_pow2 by lia.
rewrite div_eucl_div_mod. f_equal.
apply new_location_loc_of. apply Z.mod_pos_bound. lia.
Qed.

Lemma binary_round_aux_spec sx q e0 l N D :
0 <= N -> 0 < D -> q = N / D -> l = loc_of (N mod D) D ->
exists n1 M n2,
  n1 = Z.max 0 (fexp prec emax (Zdigits2 q + e0) - e0) /\
  nearest N (D * 2 ^ n1) M /\
  n2 = Z.max 0 (fexp prec emax (Zdigits2 M + (e0 + n1)) - (e0 + n1)) /\
  binary_round_aux prec emax sx q e0 l =
    match M / 2 ^ n2 with
    | Z0 => S754_zero sx
    | Zpos m =>
        if e0 + n1 + n2 <=? emax - prec
        then S754_finite sx m (e0 + n1 + n2) else S754_infinity sx
    | Zneg _ => S754_nan
    end.
Proof.
intros HN HD Hq Hl.
assert (H0 : denotes N D (shr_record_of_loc q l)).
{ split; [rewrite shr_m_record|rewrite loc_of_record]; assumption. }
set (n := fexp prec emax (Zdigits2 q + e0) - e0).
destruct (shr_denotes N D _ e0 n HN HD H0) as [He1 H1].
assert (HD1 : 0 < D * 2 ^ Z.max 0 n)
  by (apply Z.mul_pos_pos; [lia|apply Z.pow_pos_nonneg; lia]).
pose proof (round_nearest_even_nearest _ _ _ HN HD1 H1) as HM.
set (M := round_nearest_even (shr_m (fst (shr (shr_record_of_loc q l) e0 n)))
            (loc_of_shr_record (fst (shr (shr_record_of_loc q l) e0 n)))) in *.
assert (HM0 : 0 <= M).
{ destruct HM as [[Hlo _] _].
  pose proof (Z.div_pos N (D * 2 ^ Z.max 0 n) HN HD1). lia. }
assert (H2 : denotes M 1 (shr_record_of_loc M loc_Exact)).
{ split; cbn [shr_record_of_loc shr_m loc_of_shr_record].
  - now rewrite Z.div_1_r.
  - now rewrite Z.mod_1_r. }
set (n' := fexp prec emax (Zdigits2 M + (e0 + Z.max 0 n)) - (e0 + Z.max 0 n)).
destruct (shr_denotes M 1 _ (e0 + Z.max 0 n) n' HM0 ltac:(lia) H2) as [He2 [H3 _]].
exists (Z.max 0 n), M, (Z.max 0 n').
split; [reflexivity|]. split; [exact HM|]. split; [reflexivity|].
unfold binary_round_aux, shr_fexp. fold n.
destruct (shr (shr_record_of_loc q l) e0 n) as [mrs' e'] eqn:E1.
cbn [fst snd] in *. subst e'. fold M. fold n'.
destruct (shr (shr_record_of_loc M loc_Exact) (e0 + Z.max 0 n) n') as [mrs'' e''] eqn:E2.
cbn [fst snd] in *. subst e''. cbv beta iota. rewrite H3, Z.mul_1_l.
rewrite <- !Z.add_assoc. reflexivity.
Qed.

Lemma int_of_rounded s M n2 t :
0 <= M -> 0 <= n2 <= t ->
int_of_float
  match M / 2 ^ n2 with
  | Z0 => S754_zero s
  | Zpos m =>
      if n2 - t <=? emax - prec
      then S754_finite s m (n2 - t) else S754_infinity s
  | Zneg _ => S754_nan
  end = Ok (signed s (M / 2 ^ t)).
Proof.
intros HM [Hn Ht].
assert (P2 : 0 < 2 ^ n2) by (apply Z.pow_pos_nonneg; lia).
assert (Hsplit : M / 2 ^ t = M / 2 ^ n2 / 2 ^ (t - n2)).
{ rewrite Z.div_div by (try apply Z.pow_pos_nonneg; lia).
  rewrite <- Z.pow_add_r by lia. f_equal. f_equal. lia. }
pose proof (Z.div_pos M (2 ^ n2) HM P2) as Hq.
destruct (M / 2 ^ n2) as [|m|m] eqn:E; [| |lia].
- cbn [int_of_float]. rewrite Hsplit, Z.div_0_l.
  + destruct s; reflexivity.
  + apply Z.pow_nonzero; lia.
- replace (n2 - t <=? emax - prec) with true
    by (symmetry; apply Z.leb_le; unfold emax, prec; lia).
  cbn [int_of_float]. f_equal. unfold signed. rewrite Hsplit.
  destruct (Z.leb_spec 0 (n2 - t)).
  + replace (n2 - t) with 0 by lia. replace (t - n2) with 0 by lia.
    rewrite Z.pow_0_r, Z.mul_1_r, Z.div_1_r. reflexivity.
  + replace (- (n2 - t)) with (t - n2) by lia. reflexivity.
Qed.

Lemma quotient_of_nearest A B T M :
0 < A -> 0 < B -> 0 < T ->
2 * A * T - B <= 2 * B * M <= 2 * A * T + B ->
B < 2 * T \/ (A < B /\ M < T) ->
M / T = A / B.
Proof.
intros HA HB HT [Hlo Hhi] Hcase.
pose proof (Z.div_mod A B ltac:(lia)) as E.
pose proof (Z.mod_pos_bound A B HB) as Br.
pose proof (Z.div_pos A B ltac:(lia) HB) as Hk.
set (k := A / B) in *. set (r := A mod B) in *.
assert (Hge : k * T <= M) by nia.
assert (Hlt : M < (k + 1) * T).
{ destruct Hcase as [Hn|[Hs HsM]].
  - nia.
  - assert (k = 0) by (unfold k; apply Z.div_small; lia). subst k. nia. }
symmetry. apply (Z.div_unique_pos M T k (M - k * T)); lia.
Qed.

Lemma pow2_pos n : 0 <= n -> 0 < 2 ^ n.
Proof. intros. apply Z.pow_pos_nonneg; lia. Qed.

Lemma pow2_split n m : 0 <= n -> 0 <= m -> 2 ^ (n + m) = 2 ^ n * 2 ^ m.
Proof. intros. apply Z.pow_add_r; assumption. Qed.

Lemma pow2_le n m : 0 <= n <= m -> 2 ^ n <= 2 ^ m.
Proof. intros. apply Z.pow_le_mono_r; lia. Qed.

Lemma div_lt_bound x y z : 0 <= x -> 0 < y -> x < z * y -> x / y < z.
Proof. intros. apply Z.div_lt_upper_bound; lia. Qed.

Lemma SFdiv_small (sa sb : bool) (a b : positive) :
Z.pos a < 2 ^ 53 ->
exists M n2 t,
  0 <= M /\ 0 <= n2 <= t /\
  M / 2 ^ t = Z.pos a / Z.pos b /\
  SFdiv prec emax (S754_finite sa a 0) (S754_finite sb b 0) =
    match M / 2 ^ n2 with
    | Z0 => S754_zero (xorb sa sb)
    | Zpos m =>
        if n2 - t <=? emax - prec
        then S754_finite (xorb sa sb) m (n2 - t)
        else S754_infinity (xorb sa sb)
    | Zneg _ => S754_nan
    end.
Proof.
intros Ha.
pose proof (digits2_pos_bounds a) as [Ha1 Ha2].
pose proof (digits2_pos_bounds b) as [Hb1 Hb2].
assert (Hd1 : Zdigits2 (Z.pos a) <= 53) by (apply Zdigits2_le; lia).
cbn [Zdigits2] in Hd1.
set (A := Z.pos a) in *. set (B := Z.pos b) in *.
set (d1 := Z.pos (digits2_pos a)) in *.
set (d2 := Z.pos (digits2_pos b)) in *.
assert (Hd1' : 1 <= d1) by (unfold d1; lia).
assert (Hd2' : 1 <= d2) by (unfold d2; lia).
assert (HA : 0 < A) by (unfold A; lia).
assert (HB : 0 < B) by (unfold B; lia).
pose (e0 := Z.min (fexp prec emax (Zdigits2 A - Zdigits2 B)) 0).
assert (He0 : e0 = Z.max (d1 - d2 - 53) (-1074)).
{ unfold e0. rewrite fexp_eq. unfold A, B. cbn [Zdigits2]. fold d1 d2. lia. }
assert (He0' : -1074 <= e0 < 0) by lia.
set (s := - e0).
assert (Hs : 0 < s <= 1074) by (unfold s; lia).
unfold SFdiv. fold A B.
pose proof (core_spec a b) as Hcore. cbv zeta in Hcore. fold A B e0 s in Hcore.
rewrite (Hcore (proj2 He0')). clear Hcore.
assert (HN : 0 <= A * 2 ^ s) by (pose proof (pow2_pos s); nia).
destruct (binary_round_aux_spec (xorb sa sb) _ e0 _ (A * 2 ^ s) B HN HB eq_refl eq_refl)
  as (n1 & M & n2 & Hn1 & HM & Hn2 & Hres).
rewrite Hres. clear Hres.
set (q := A * 2 ^ s / B) in *.
assert (Hq0 : 0 <= q) by (apply Z.div_pos; lia).
assert (P2s : 0 < 2 ^ s) by (apply pow2_pos; lia).
assert (Hq1 : q <= A * 2 ^ s).
{ unfold q. apply Z.div_le_upper_bound; nia. }
assert (Hdq : Zdigits2 q <= 53 + s).
{ apply Zdigits2_le; [lia|]. split; [lia|]. rewrite pow2_split by lia. nia. }
rewrite fexp_eq in Hn1.
assert (Hn1' : 0 <= n1 <= s) by (unfold s in *; lia).
set (t := s - n1).
assert (Ht : 0 <= t) by (unfold t; lia).
assert (P2t : 0 < 2 ^ t) by (apply pow2_pos; lia).
assert (P2n : 0 < 2 ^ n1) by (apply pow2_pos; lia).
assert (Hst : 2 ^ s = 2 ^ t * 2 ^ n1).
{ rewrite <- pow2_split by lia. f_equal. unfold t. lia. }
destruct HM as [[HMlo HMhi] [HMa HMb]].
assert (HMb' : 2 * A * 2 ^ t - B <= 2 * B * M <= 2 * A * 2 ^ t + B).
{ rewrite Hst in HMa, HMb. split.
  - apply (Z.mul_le_mono_pos_r _ _ (2 ^ n1)); [assumption|]. lia.
  - apply (Z.mul_le_mono_pos_r _ _ (2 ^ n1)); [assumption|]. lia. }
assert (HM0 : 0 <= M).
{ assert (0 <= A * 2 ^ s / (B * 2 ^ n1)) by (apply Z.div_pos; nia). lia. }
assert (HM1 : M <= A * 2 ^ t) by nia.
assert (HdM : Zdigits2 M <= 53 + t).
{ apply Zdigits2_le; [lia|]. split; [lia|]. rewrite pow2_split by lia. nia. }
rewrite fexp_eq in Hn2.
assert (He1 : e0 + n1 = - t) by (unfold t, s; lia).
rewrite He1 in Hn2.
assert (Hn2' : 0 <= n2 <= t) by lia.
exists M, n2, t.
split; [assumption|]. split; [assumption|].
split.
2:{ replace (e0 + n1 + n2) with (n2 - t) by lia. reflexivity. }
apply quotient_of_nearest; try assumption.
destruct (Z_le_gt_dec (-1074) (d1 - d2 - 53)) as [Hnorm|Hsub].
- (* normal range *)
  left.
  assert (Es : s = 53 + d2 - d1) by (unfold s; lia).
  assert (Hq54 : q < 2 ^ 54).
  { unfold q. apply div_lt_bound; [lia|lia|].
    assert (E1 : 2 ^ d1 * 2 ^ s = 2 ^ 54 * 2 ^ (d2 - 1)).
    { rewrite <- !pow2_split by lia. f_equal. lia. }
    assert (0 < 2 ^ (d2 - 1)) by (apply pow2_pos; lia).
    nia. }
  assert (Hdq54 : Zdigits2 q <= 54) by (apply Zdigits2_le; lia).
  assert (Hn1le : n1 <= 1) by lia.
  assert (Hpow : 2 ^ d2 <= 2 ^ (t + 1)) by (apply pow2_le; unfold t; lia).
  rewrite pow2_split in Hpow by lia. change (2 ^ 1) with 2 in Hpow. lia.
- (* results below the normal range *)
  right.
  assert (Es : s = 1074) by (unfold s; lia).
  assert (HAB : A < B).
  { assert (2 ^ d1 <= 2 ^ (d2 - 1)) by (apply pow2_le; lia). lia. }
  split; [assumption|].
  assert (Hq53 : q < 2 ^ 53).
  { unfold q. apply div_lt_bound; [lia|lia|].
    assert (E1 : 2 ^ d1 * 2 ^ s <= 2 ^ 53 * 2 ^ (d2 - 1)).
    { rewrite <- !pow2_split by lia. apply pow2_le. lia. }
    nia. }
  assert (Hdq53 : Zdigits2 q <= 53) by (apply Zdigits2_le; lia).
  assert (Hn10 : n1 = 0) by lia.
  assert (Et : t = 1074) by (unfold t; lia).
  rewrite Hn10, Z.pow_0_r, Z.mul_1_r in HMhi. fold q in HMhi.
  assert (2 ^ 53 < 2 ^ t) by (apply Z.pow_lt_mono_r; lia).
  lia.
Qed.

End Binary64.

(* ===================================================================== *)
(** * Averages *)
(* ===================================================================== *)

Section Averages.

Lemma rounded_cases s M n2 t :
  0 <= M -> 0 <= n2 <= t ->
  let F := match M / 2 ^ n2 with
           | Z0 => S754_zero s
           | Zpos m =>
               if n2 - t <=? emax - prec
               then S754_finite s m (n2 - t) else S754_infinity s
           | Zneg _ => S754_nan
           end in
  F = S754_zero s \/ exists m, F = S754_finite s m (n2 - t).
Proof.
  intros HM Hn F. subst F.
  pose proof (Z.div_pos M (2 ^ n2) HM (Binary64.pow2_pos n2 (proj1 Hn))) as Hq.
  destruct (M / 2 ^ n2) as [|m|m]; [left; reflexivity| |lia].
  right. exists m.
  replace (n2 - t <=? emax - prec) with true; [reflexivity|].
  symmetry. apply Z.leb_le. unfold emax, prec. lia.
Qed.

(** Dividing an integer of magnitude below [2^53] by a positive one
    and truncating the binary64 quotient gives the integer quotient
    rounded toward zero. *)
Lemma int_true_div_small (a b : Z) :
  0 < b -> Z.abs a < 2 ^ 53 ->
  rbind (true_div a b) int_of_float = Ok (Z.quot a b).
Proof.
  intros Hb Ha. unfold true_div.
  destruct (Z.eqb_spec b 0) as [E|_]; [lia|].
  destruct b as [|pb|pb]; try lia.
  destruct a as [|pa|pa].
  - reflexivity.
  - destruct (Binary64.SFdiv_small false false pa pb ltac:(lia))
      as (M & n2 & t & HM & Hn & Hquo & Hdiv).
    cbn [float_of_int]. rewrite Hdiv.
    pose proof (Binary64.int_of_rounded false M n2 t HM Hn) as Hint.
    destruct (rounded_cases false M n2 t HM Hn) as [E|[m E]];
      cbn zeta in E; cbn [xorb] in *; rewrite E in *; cbn [rbind];
      rewrite Hint, Hquo; cbn [signed]; f_equal;
      symmetry; apply Z.quot_div_nonneg; lia.
  - destruct (Binary64.SFdiv_small true false pa pb ltac:(lia))
      as (M & n2 & t & HM & Hn & Hquo & Hdiv).
    cbn [float_of_int]. rewrite Hdiv.
    pose proof (Binary64.int_of_rounded true M n2 t HM Hn) as Hint.
    destruct (rounded_cases true M n2 t HM Hn) as [E|[m E]];
      cbn zeta in E; cbn [xorb] in *; rewrite E in *; cbn [rbind];
      rewrite Hint, Hquo; cbn [signed]; f_equal;
      change (Z.neg pa) with (- Z.pos pa);
      rewrite Z.quot_opp_l by lia; f_equal;
      symmetry; apply Z.quot_div_nonneg; lia.
Qed.

End Averages.

(** C3 (as amended).  For every non-empty list of counts whose sum is
    below [2^53] in absolute value, the average that is persisted,
    [int(sum(l) / len(l))], is the quotient of the sum by the count
    truncated toward zero; when the sum is not negative this is
    [floor(sum / count)].  For the views [100, 200, 201] it is [167].
    That the values written back are these averages is
    [persisted_values_are_averages] below. *)
Theorem average_truncates (l : list Z) :
  l <> [] ->
  Z.abs (py_sum l) < 2 ^ 53 ->
  average l = Ok (Z.quot (py_sum l) (Z.of_nat (List.length l))) /\
  (0 <= py_sum l -> average l = Ok (py_sum l / Z.of_nat (List.length l))) /\
  average [100; 200; 201] = Ok 167.
Proof.
  intros Hne Hsum.
  assert (Hlen : 0 < Z.of_nat (List.length l)) by (destruct l; [congruence|cbn [List.length]; lia]).
  assert (Havg : average l = Ok (Z.quot (py_sum l) (Z.of_nat (List.length l))))
    by (apply int_true_div_small; assumption).
  split; [exact Havg|]. split.
  - intros Hpos. rewrite Havg. f_equal. apply Z.quot_div_nonneg; lia.
  - vm_compute. reflexivity.
Qed.

Lemma average_truncates_witness :
  average [100; 200; 201]
    = Ok (Z.quot (py_sum [100; 200; 201]) (Z.of_nat (List.length [100; 200; 201]))) /\
  (0 <= py_sum [100; 200; 201] ->
   average [100; 200; 201]
     = Ok (py_sum [100; 200; 201] / Z.of_nat (List.length [100; 200; 201]))) /\
  average [100; 200; 201] = Ok 167.
Proof.
  apply (average_truncates [100; 200; 201]).
  - discriminate.
  - vm_compute. reflexivity.
Defined.

(** C3 (as stated) fails on a sum that binary64 cannot hold: one video
    with [2^53 + 1] views is averaged to [2^53]. *)
Lemma average_of_large_sum_is_rounded :
  average [9007199254740993] = Ok 9007199254740992 /\
  average [9007199254740993]
    <> Ok (py_sum [9007199254740993] / Z.of_nat (List.length [9007199254740993])).
Proof.
  split; [vm_compute; reflexivity|].
  vm_compute. intros H. discriminate H.
Qed.

(* ===================================================================== *)
(** * The duration classifier *)
(* ===================================================================== *)

(** C5.  [is_longform] always returns: it is [True] exactly when the
    duration parses and lasts at least 180 seconds, and [False] when the
    parser raises.  ["PT3M0S"] (180 seconds) is long-form, ["PT2M59S"]
    and ["not-a-duration"] are not. *)
Theorem is_longform_threshold (w : world) :
  (forall s, exists b, is_longform w s = Ok b) /\
  (forall s, is_longform w s = Ok true <->
             exists d, parse_duration w s = Ok d /\ 180 * 1000000 <= d) /\
  (forall s e, parse_duration w s = Raise e -> is_longform w s = Ok false) /\
  parse_duration w "PT3M0S" = Ok (180 * 1000000) /\
  is_longform w "PT3M0S" = Ok true /\
  is_longform w "PT2M59S" = Ok false /\
  is_longform w "not-a-duration" = Ok false.
Proof.
  unfold is_longform, try_except, rbind.
  split; [|split; [|split]].
  - intros s. destruct (parse_duration w s); eauto.
  - intros s. split.
    + destruct (parse_duration w s) as [d|e] eqn:E; intros H; [|discriminate].
      exists d. split; [reflexivity|]. apply Z.leb_le. congruence.
    + intros (d & -> & Hd). f_equal. apply Z.leb_le. exact Hd.
  - intros s e ->. reflexivity.
  - repeat split; reflexivity.
Qed.

Lemma is_longform_threshold_witness :
  is_longform Sample.deployment "not-a-duration" = Ok false.
Proof.
  destruct (is_longform_threshold Sample.deployment) as (_ & _ & H & _).
  apply (H "not-a-duration"
           (ISO8601Error "Unable to parse duration string 'not-a-duration'")).
  reflexivity.
Defined.

(* ===================================================================== *)
(** * The metric-collection loop *)
(* ===================================================================== *)

Lemma collect_video_returns w v st : snd (collect_video w v st) = Ok tt.
Proof.
  unfold collect_video.
  destruct (collect_try w v st) as [st' [[]|e]]; reflexivity.
Qed.

Lemma collect_metrics_returns w videos : forall st,
  snd (collect_metrics w videos st) = Ok tt.
Proof.
  induction videos as [|v rest IH]; intros st; cbn [collect_metrics].
  - reflexivity.
  - unfold bseq. pose proof (collect_video_returns w v st) as H.
    destruct (collect_video w v st) as [st' r]. cbn [snd] in H. subst r.
    apply IH.
Qed.

(** C10.  The loop over the video details never raises, and goes
    through the videos one by one, each taking the three lists as the
    one before left them.  A video without a duration, or whose
    duration the parser rejects, or which lasts less than 180 seconds,
    leaves the three lists as they were.  For a long-form video the
    counts are read in the order views, likes, comments, an absent
    count (or absent statistics) being 0, and the first count that
    [int] rejects ends the video at that point with what was appended
    before it kept: nothing for the view count, the views for the like
    count, the views and the likes for the comment count.  The lists
    can therefore end with different lengths. *)
Theorem collect_metrics_never_raises (w : world) :
  (forall videos st, snd (collect_metrics w videos st) = Ok tt) /\
  (forall st, collect_metrics w [] st = (st, Ok tt)) /\
  (forall v rest st,
     collect_metrics w (v :: rest) st
     = collect_metrics w rest (fst (collect_video w v st))) /\
  (forall v st, duration v = None -> collect_video w v st = (st, Ok tt)) /\
  (forall v d e st,
     duration v = Some d -> parse_duration w d = Raise e ->
     collect_video w v st = (st, Ok tt)) /\
  (forall v d lasts st,
     duration v = Some d -> parse_duration w d = Ok lasts ->
     lasts < 180 * 1000000 ->
     collect_video w v st = (st, Ok tt)) /\
  (forall v d st,
     duration v = Some d -> is_longform w d = Ok false ->
     collect_video w v st = (st, Ok tt)) /\
  (forall v d st,
     duration v = Some d -> is_longform w d = Ok true ->
     statistics v = None ->
     collect_video w v st =
       ({| longform_views := (longform_views st ++ [0])%list;
           longform_likes := (longform_likes st ++ [0])%list;
           longform_comments := (longform_comments st ++ [0])%list |}, Ok tt)) /\
  int_count w None = Ok 0 /\
  (forall v d counts e st,
     duration v = Some d -> is_longform w d = Ok true ->
     statistics v = Some counts ->
     int_count w (viewCount counts) = Raise e ->
     collect_video w v st = (st, Ok tt)) /\
  (forall v d counts n e st,
     duration v = Some d -> is_longform w d = Ok true ->
     statistics v = Some counts ->
     int_count w (viewCount counts) = Ok n ->
     int_count w (likeCount counts) = Raise e ->
     collect_video w v st =
       ({| longform_views := (longform_views st ++ [n])%list;
           longform_likes := longform_likes st;
           longform_comments := longform_comments st |}, Ok tt)) /\
  (forall v d counts n m e st,
     duration v = Some d -> is_longform w d = Ok true ->
     statistics v = Some counts ->
     int_count w (viewCount counts) = Ok n ->
     int_count w (likeCount counts) = Ok m ->
     int_count w (commentCount counts) = Raise e ->
     collect_video w v st =
       ({| longform_views := (longform_views st ++ [n])%list;
           longform_likes := (longform_likes st ++ [m])%list;
           longform_comments := longform_comments st |}, Ok tt)) /\
  (forall v d counts n m k st,
     duration v = Some d -> is_longform w d = Ok true ->
     statistics v = Some counts ->
     int_count w (viewCount counts) = Ok n ->
     int_count w (likeCount counts) = Ok m ->
     int_count w (commentCount counts) = Ok k ->
     collect_video w v st =
       ({| longform_views := (longform_views st ++ [n])%list;
           longform_likes := (longform_likes st ++ [m])%list;
           longform_comments := (longform_comments st ++ [k])%list |}, Ok tt)) /\
  fst (collect_metrics w [Sample.counted "PT10M" "100" "10" "1"; Sample.odd_likes]
         no_metrics)
    = {| longform_views := [100; 20]; longform_likes := [10];
         longform_comments := [1] |} /\
  fst (collect_metrics w
         [ Sample.counted "PT10M" "100" "10" "1";
           Sample.counted "not-a-duration" "9" "9" "9";
           Sample.counted "PT5M" "30" "3" "many";
           Sample.counted "PT2M59S" "8" "8" "8";
           Sample.odd_likes;
           {| duration := None; statistics := None |};
           {| duration := Some "PT3M0S"; statistics := None |} ]
         no_metrics)
    = {| longform_views := [100; 30; 20; 0]; longform_likes := [10; 3; 0];
         longform_comments := [1; 0] |}.
Proof.
  split; [exact (collect_metrics_returns w)|].
  split; [reflexivity|].
  split.
  { intros v rest st. cbn [collect_metrics]. unfold bseq.
    pose proof (collect_video_returns w v st) as H.
    destruct (collect_video w v st) as [st' r]. cbn [snd fst] in *.
    now subst r. }
  unfold collect_video, collect_try, bseq, bpure, subscript.
  split. { intros v st ->. reflexivity. }
  split.
  { intros v d e st -> H. unfold is_longform, try_except, rbind.
    rewrite H. reflexivity. }
  split.
  { intros v d lasts st -> H Hshort. unfold is_longform, try_except, rbind.
    rewrite H.
    replace (180 * 1000000 <=? lasts) with false
      by (symmetry; apply Z.leb_gt; exact Hshort).
    reflexivity. }
  split. { intros v d st -> ->. reflexivity. }
  split. { intros v d st -> -> ->. reflexivity. }
  split. { reflexivity. }
  split. { intros v d counts e st -> -> -> ->. reflexivity. }
  split. { intros v d counts n e st -> -> -> -> ->. reflexivity. }
  split. { intros v d counts n m e st -> -> -> -> -> ->. reflexivity. }
  split. { intros v d counts n m k st -> -> -> -> -> ->. reflexivity. }
  split; reflexivity.
Qed.

Lemma collect_metrics_never_raises_witness :
  collect_video Sample.deployment (Sample.counted "PT5M" "30" "3" "many")
    no_metrics
  = ({| longform_views := [30]; longform_likes := [3];
        longform_comments := [] |}, Ok tt) /\
  collect_video Sample.deployment Sample.odd_likes no_metrics
  = ({| longform_views := [20]; longform_likes := [];
        longform_comments := [] |}, Ok tt) /\
  collect_video Sample.deployment (Sample.counted "not-a-duration" "9" "9" "9")
    no_metrics
  = (no_metrics, Ok tt).
Proof.
  destruct (collect_metrics_never_raises Sample.deployment)
    as (_ & _ & _ & _ & Hbad & _ & _ & _ & _ & _ & Hlikes & Hcomments & _).
  split; [|split].
  - apply (Hcomments (Sample.counted "PT5M" "30" "3" "many") "PT5M"
             {| viewCount := Some "30"; likeCount := Some "3";
                commentCount := Some "many" |}
             30 3 (ValueError "invalid literal for int() with base 10: 'many'")
             no_metrics); reflexivity.
  - apply (Hlikes Sample.odd_likes "PT5M"
             {| viewCount := Some "20"; likeCount := Some "n/a";
                commentCount := Some "4" |}
             20 (ValueError "invalid literal for int() with base 10: 'n/a'")
             no_metrics); reflexivity.
  - apply (Hbad (Sample.counted "not-a-duration" "9" "9" "9") "not-a-duration"
             (ISO8601Error "Unable to parse duration string 'not-a-duration'")
             no_metrics); reflexivity.
Defined.

(* ===================================================================== *)
(** * Batched video details *)
(* ===================================================================== *)

Section Batches.

Variable w : world.

Lemma firstn_plus {A} (l : list A) : forall a b,
  firstn (a + b) l = (firstn a l ++ firstn b (skipn a l))%list.
Proof.
  induction l as [|x l IH]; intros a b.
  - now rewrite !firstn_nil, skipn_nil, firstn_nil.
  - destruct a as [|a]; [reflexivity|].
    cbn [Nat.add firstn skipn app]. now rewrite IH.
Qed.

Lemma concat_slices {A} (l : list A) (k : nat) :
  List.concat (map (fun i => slice l i (i + 50))
              (map (fun j => (50 * j)%nat) (seq 0 k)))
  = firstn (50 * k) l.
Proof.
  induction k as [|k IH].
  - reflexivity.
  - rewrite seq_S, !map_app, concat_app, IH. cbn [map List.concat Nat.add].
    rewrite app_nil_r. unfold slice.
    replace (50 * k + 50 - 50 * k)%nat with 50%nat by lia.
    replace (50 * S k)%nat with (50 * k + 50)%nat by lia.
    now rewrite firstn_plus.
Qed.

Lemma concat_batches (ids : list string) : List.concat (batches ids) = ids.
Proof.
  unfold batches, range_by_50. rewrite concat_slices.
  apply firstn_all2.
  pose proof (Nat.div_mod_eq (List.length ids + 49) 50).
  pose proof (Nat.mod_upper_bound (List.length ids + 49) 50). lia.
Qed.

Lemma batch_sizes (ids : list string) :
  Forall (fun b => (1 <= List.length b <= 50)%nat) (batches ids).
Proof.
  unfold batches, range_by_50. apply Forall_forall. intros b Hb.
  apply in_map_iff in Hb. destruct Hb as (i & <- & Hi).
  apply in_map_iff in Hi. destruct Hi as (j & <- & Hj).
  apply in_seq in Hj. unfold slice.
  rewrite length_firstn, length_skipn.
  pose proof (Nat.div_mod_eq (List.length ids + 49) 50).
  pose proof (Nat.mod_upper_bound (List.length ids + 49) 50). lia.
Qed.

(** The loop, from any point on: requests go out batch by batch until
    one raises. *)
Lemma stats_batches_calls (ids : list string) (starts : list nat) :
  forall acc, exists n,
    calls (stats_batches w ids starts acc)
    = map YouTubeVideos
          (firstn n (map (fun i => slice ids i (i + 50)) starts)).
Proof.
  induction starts as [|i starts IH]; intros acc.
  - exists 0%nat. reflexivity.
  - cbn [stats_batches map]. unfold bind, request.
    destruct (youtube_videos w (slice ids i (i + 50))) as [found|e].
    + destruct (IH (acc ++ found)%list) as [n Hn].
      exists (S n). unfold calls in *.
      destruct (stats_batches w ids starts (acc ++ found)) as [l o].
      cbn [fst] in *. cbn [firstn map]. now rewrite Hn.
    + exists 1%nat. reflexivity.
Qed.

Lemma stats_batches_all (ids : list string) (starts : list nat) :
  forall acc answers,
    Forall2 (fun b found => youtube_videos w b = Ok found)
            (map (fun i => slice ids i (i + 50)) starts) answers ->
    stats_batches w ids starts acc
    = (map YouTubeVideos (map (fun i => slice ids i (i + 50)) starts),
       Returns (acc ++ List.concat answers)%list).
Proof.
  induction starts as [|i starts IH]; intros acc answers H;
    cbn [map] in H; inversion H; subst; cbn [stats_batches map List.concat].
  - now rewrite app_nil_r.
  - unfold bind, request.
    match goal with E : youtube_videos _ _ = Ok _ |- _ => rewrite E end.
    rewrite (IH _ _ ltac:(eassumption)). now rewrite app_assoc.
Qed.

End Batches.

(** C6.  [get_video_stats_batch] cuts the identifiers into consecutive
    batches of at most 50, sends one request per batch, in order, as
    long as no request raises, and returns the answers concatenated;
    101 identifiers make three batches, of 50, 50 and 1. *)
Theorem get_video_stats_batch_batches (w : world) (video_ids : list string) :
  List.concat (batches video_ids) = video_ids /\
  Forall (fun b => (1 <= List.length b <= 50)%nat) (batches video_ids) /\
  (exists n, calls (get_video_stats_batch w video_ids)
             = map YouTubeVideos (firstn n (batches video_ids))) /\
  (forall answers,
     Forall2 (fun b found => youtube_videos w b = Ok found)
             (batches video_ids) answers ->
     get_video_stats_batch w video_ids
     = (map YouTubeVideos (batches video_ids), Returns (List.concat answers))) /\
  (List.length video_ids = 101%nat ->
   map (@List.length string) (batches video_ids) = [50; 50; 1]%nat).
Proof.
  split; [apply concat_batches|].
  split; [apply batch_sizes|].
  split; [apply stats_batches_calls|].
  split.
  - intros answers H. unfold get_video_stats_batch.
    apply (stats_batches_all w video_ids _ [] answers H).
  - intros Hlen. unfold batches. rewrite Hlen.
    unfold range_by_50.
    change ((101 + 49) / 50)%nat with 3%nat. cbn [seq map]. unfold slice.
    rewrite !length_firstn. rewrite !length_skipn. rewrite Hlen. reflexivity.
Qed.

Lemma get_video_stats_batch_batches_witness :
  map (@List.length string) (batches (repeat "vid1" 101)) = [50; 50; 1]%nat /\
  calls (get_video_stats_batch Sample.deployment (repeat "vid1" 101))
  = [ YouTubeVideos (repeat "vid1" 50); YouTubeVideos (repeat "vid1" 50);
      YouTubeVideos ["vid1"] ].
Proof.
  destruct (get_video_stats_batch_batches Sample.deployment (repeat "vid1" 101))
    as (_ & _ & _ & Hall & Hsizes).
  split.
  - apply Hsizes. reflexivity.
  - rewrite (Hall [ Sample.lookup_all (repeat "vid1" 50) Sample.videos;
                    Sample.lookup_all (repeat "vid1" 50) Sample.videos;
                    Sample.lookup_all ["vid1"] Sample.videos ]).
    + reflexivity.
    + repeat constructor.
Defined.

(* ===================================================================== *)
(** * Pagination of the uploads playlist *)
(* ===================================================================== *)

Section Pagination.

Variable w : world.
Variable playlist_id : string.
Variable cutoff_date : datetime.
Hypothesis cutoff_aware : aware cutoff_date = true.

Let cutoff := instant cutoff_date.

Lemma scan_items_shows its seen :
  Forall2 (shows w) its seen ->
  forall acc found,
    scan_items w cutoff_date its acc found
    = Ok ((acc ++ recent cutoff seen)%list,
          found || existsb (fun p => cutoff <=? fst p) seen).
Proof.
  induction 1 as [|item ts its seen Hshow _ IH]; intros acc found.
  2: destruct ts as [t id]; destruct Hshow as (raw & Hraw & Hparse & Hid).
  - cbn. now rewrite app_nil_r, orb_false_r.
  - cbn [scan_items]. rewrite Hraw. cbn [subscript rbind].
    rewrite Hparse. cbn [rbind]. unfold datetime_ge.
    cbn [aware instant fst snd] in *. rewrite cutoff_aware. cbn [Bool.eqb rbind].
    unfold recent. cbn [filter existsb fst]. fold cutoff.
    destruct (cutoff <=? t).
    + rewrite Hid. cbn [subscript rbind map snd]. rewrite IH.
      unfold recent. rewrite <- app_assoc. cbn [app].
      now rewrite orb_true_r.
    + rewrite IH. reflexivity.
Qed.

Lemma recent_nil_iff seen :
  recent cutoff seen = [] <-> existsb (fun p => cutoff <=? fst p) seen = false.
Proof.
  unfold recent. induction seen as [|[t id] seen IH]; cbn [filter existsb map fst].
  - tauto.
  - destruct (cutoff <=? t); cbn [map orb]; [split; discriminate|exact IH].
Qed.

Let asks (v : option string * list string) : call :=
  YouTubePlaylistItems playlist_id (fst v).

Lemma loop_follows_walk token visits :
  walk w playlist_id cutoff token visits ->
  token = None \/ truthy token = true ->
  forall fuel acc,
    (List.length visits <= fuel)%nat ->
    get_recent_video_ids_loop fuel w playlist_id cutoff_date acc token
    = (map asks visits, Returns (acc ++ List.concat (map snd visits))%list).
Proof.
  induction 1 as [token p seen Hp Hseen Hold
                 |token p seen Hp Hseen Hnew Hlast
                 |token p seen rest Hp Hseen Hnew Hnext _ IH];
    intros Htoken fuel acc Hfuel;
    (destruct fuel as [|fuel]; [cbn [List.length] in Hfuel; lia|]);
    cbn [get_recent_video_ids_loop];
    assert (Etok : (if truthy token then token else None) = token)
      by (destruct Htoken as [-> | ->]; reflexivity);
    rewrite Etok, Hp; unfold request, lift, bind;
    rewrite (scan_items_shows _ _ Hseen); cbn [orb ret].
  - apply recent_nil_iff in Hold. rewrite Hold. cbn [negb].
    apply recent_nil_iff in Hold. rewrite Hold. reflexivity.
  - assert (E : existsb (fun p0 => cutoff <=? fst p0) seen = true).
    { destruct (existsb _ seen) eqn:E; [reflexivity|].
      apply recent_nil_iff in E. contradiction. }
    rewrite E, Hlast. cbn [negb map List.concat snd fst app].
    now rewrite !app_nil_r.
  - assert (E : existsb (fun p0 => cutoff <=? fst p0) seen = true).
    { destruct (existsb _ seen) eqn:E; [reflexivity|].
      apply recent_nil_iff in E. contradiction. }
    rewrite E, Hnext. cbn [negb].
    rewrite (IH (or_intror Hnext) fuel (acc ++ recent cutoff seen)%list)
      by (cbn [List.length] in Hfuel; lia).
    cbn [map List.concat snd fst app]. now rewrite <- app_assoc.
Qed.

End Pagination.

(** C4.  [get_recent_video_ids] requests the pages one after the other,
    each with the token the previous page announced, and returns, in
    page order, the identifiers of the items published at or after the
    cutoff.  It stops at the first page that contributes no such item,
    whether or not that page announces a further one, and at a page
    that announces none.  When the second page has only older items,
    two requests are made and the identifiers of the first page are
    returned. *)
Theorem get_recent_video_ids_walk
  (w : world) (playlist_id : string) (cutoff_date : datetime) :
  aware cutoff_date = true ->
  (forall visits fuel,
     walk w playlist_id (instant cutoff_date) None visits ->
     (List.length visits <= fuel)%nat ->
     get_recent_video_ids fuel w playlist_id cutoff_date
     = (map (fun v => YouTubePlaylistItems playlist_id (fst v)) visits,
        Returns (List.concat (map snd visits)))) /\
  (forall first seen_first token second seen_second fuel,
     youtube_playlist_items w playlist_id None = Ok first ->
     Forall2 (shows w) (items first) seen_first ->
     recent (instant cutoff_date) seen_first <> [] ->
     nextPageToken first = Some token -> token <> "" ->
     youtube_playlist_items w playlist_id (Some token) = Ok second ->
     Forall2 (shows w) (items second) seen_second ->
     recent (instant cutoff_date) seen_second = [] ->
     (2 <= fuel)%nat ->
     get_recent_video_ids fuel w playlist_id cutoff_date
     = ([YouTubePlaylistItems playlist_id None;
         YouTubePlaylistItems playlist_id (Some token)],
        Returns (recent (instant cutoff_date) seen_first))).
Proof.
  intros Haware.
  assert (Hwalk : forall visits fuel,
     walk w playlist_id (instant cutoff_date) None visits ->
     (List.length visits <= fuel)%nat ->
     get_recent_video_ids fuel w playlist_id cutoff_date
     = (map (fun v => YouTubePlaylistItems playlist_id (fst v)) visits,
        Returns (List.concat (map snd visits)))).
  { intros visits fuel Hw Hfuel. unfold get_recent_video_ids.
    apply (loop_follows_walk w playlist_id cutoff_date Haware None visits Hw
             (or_introl eq_refl) fuel [] Hfuel). }
  split; [exact Hwalk|].
  intros first seen_first token second seen_second fuel
         H1 S1 R1 T1 Tne H2 S2 R2 Hfuel.
  assert (Htruthy : truthy (nextPageToken first) = true).
  { rewrite T1. cbn [truthy]. apply negb_true_iff, String.eqb_neq. exact Tne. }
  rewrite (Hwalk [(None, recent (instant cutoff_date) seen_first); (Some token, [])] fuel).
  - cbn [map List.concat fst snd app]. now rewrite app_nil_r.
  - eapply walk_more; try eassumption.
    rewrite T1. eapply walk_old; eassumption.
  - exact Hfuel.
Qed.

Lemma get_recent_video_ids_walk_witness :
  get_recent_video_ids 2 Sample.deployment "UU_A"
    {| instant := Sample.now - ninety_days; aware := true |}
  = ([YouTubePlaylistItems "UU_A" None;
      YouTubePlaylistItems "UU_A" (Some "tok2")],
     Returns ["vid1"; "vid2"; "vid3"]).
Proof.
  destruct (get_recent_video_ids_walk Sample.deployment "UU_A"
              {| instant := Sample.now - ninety_days; aware := true |} eq_refl)
    as [_ H].
  apply (H Sample.page_one
           [(Sample.october, "vid1"); (Sample.september, "vid2");
            (Sample.september, "vid3")]
           "tok2" Sample.page_two [(Sample.last_year, "vid4")] 2%nat).
  - reflexivity.
  - repeat constructor; eexists; repeat split; reflexivity.
  - discriminate.
  - reflexivity.
  - discriminate.
  - reflexivity.
  - repeat constructor; eexists; repeat split; reflexivity.
  - reflexivity.
  - apply le_n.
Defined.

(* ===================================================================== *)
(** * One influencer *)
(* ===================================================================== *)

(** Take apart a hypothesis that says how a computation ended: split on
    the innermost scrutinee, reduce, and drop the cases that ended
    otherwise. *)
Ltac crack H :=
  repeat (match type of H with
          | context [match ?x with _ => _ end] =>
              lazymatch x with
              | context [match _ with _ => _ end] => fail
              | _ => destruct x eqn:?
              end
          end;
          cbv beta iota in H; try discriminate H).

Section Influencer.

Variable fuel : nat.
Variable w : world.
Variable cutoff_date : datetime.

Lemma process_influencer_fetch_failed id e :
  airtable_get w influencer_table id = Raise e ->
  process_influencer fuel w cutoff_date id
  = ([AirtableGet influencer_table id],
     Returns (failed id ("Failed to fetch influencer record: " ++ exn_text e))).
Proof.
  intros H. unfold process_influencer, get_airtable_record, request.
  rewrite H. reflexivity.
Qed.

Lemma process_influencer_no_channel id f :
  airtable_get w influencer_table id = Ok f ->
  truthy (YouTube_Channel_ID f) = false ->
  process_influencer fuel w cutoff_date id
  = ([AirtableGet influencer_table id],
     Returns (skipped id "No YouTube Channel ID")).
Proof.
  intros H Hc. unfold process_influencer, get_airtable_record, request.
  rewrite H. cbn [bind catch ret]. cbn [app]. rewrite Hc. reflexivity.
Qed.

Lemma process_influencer_entry id l e :
  process_influencer fuel w cutoff_date id = (l, Returns e) ->
  influencerId e = id /\ known_status e.
Proof.
  unfold process_influencer, get_airtable_record, update_airtable_record.
  unfold bind, catch, request, lift, ret, raise. intros H.
  crack H; injection H as _ <-; unfold known_status; cbn; auto.
Qed.

Lemma for_influencers_entries ids : forall acc l results,
  for_influencers fuel w cutoff_date ids acc = (l, Returns results) ->
  exists new,
    results = (acc ++ new)%list /\
    map influencerId new = ids /\
    Forall known_status new.
Proof.
  induction ids as [|id ids IH]; intros acc l results H;
    cbn [for_influencers] in H.
  - injection H as _ <-. exists []. now rewrite app_nil_r.
  - unfold bind in H.
    destruct (process_influencer fuel w cutoff_date id) as [l1 [e|x|]] eqn:E;
      try discriminate H.
    destruct (for_influencers fuel w cutoff_date ids (acc ++ [e])) as [l2 o] eqn:E2.
    injection H as _ ->.
    apply IH in E2. destruct E2 as (new & -> & Hids & Hst).
    apply process_influencer_entry in E. destruct E as [Hid Hk].
    exists (e :: new). rewrite <- app_assoc. cbn [app map].
    repeat split; [congruence|]. now constructor.
Qed.

End Influencer.

(** What is written back.  The video-platform clients never write to
    the table store, and the one write of a turn of the loop carries
    the three averages of the collected lists. *)
Section Persisted.

Variable fuel : nat.
Variable w : world.
Variable cutoff_date : datetime.

Lemma uploads_sends_no_patch c l o :
  get_uploads_playlist_id w c = (l, o) -> forallb (fun x => negb (is_patch x)) l = true.
Proof.
  unfold get_uploads_playlist_id, bind, request, lift, ret, raise, subscript.
  intros H. crack H; injection H as <- _; reflexivity.
Qed.

Lemma recent_sends_no_patch n pl : forall acc tok l o,
  get_recent_video_ids_loop n w pl cutoff_date acc tok = (l, o) ->
  forallb (fun x => negb (is_patch x)) l = true.
Proof.
  induction n as [|n IH]; intros acc tok l o H; cbn [get_recent_video_ids_loop] in H.
  - injection H as <- _. reflexivity.
  - unfold bind, request, lift, ret, raise in H.
    destruct (youtube_playlist_items w pl _) as [p|e]; [|injection H as <- _; reflexivity].
    destruct (scan_items w cutoff_date (items p) acc false) as [[ids found]|e];
      [|injection H as <- _; reflexivity].
    cbv beta iota in H.
    destruct (negb found); [injection H as <- _; reflexivity|].
    destruct (negb (truthy (nextPageToken p))); [injection H as <- _; reflexivity|].
    destruct (get_recent_video_ids_loop n w pl cutoff_date ids (nextPageToken p))
      as [l' o'] eqn:E.
    apply IH in E. injection H as <- _. cbn [app forallb is_patch negb andb]. exact E.
Qed.

Lemma stats_sends_no_patch ids l o :
  get_video_stats_batch w ids = (l, o) ->
  forallb (fun x => negb (is_patch x)) l = true.
Proof.
  intros H. unfold get_video_stats_batch in H.
  destruct (stats_batches_calls w ids (range_by_50 (List.length ids)) []) as [n Hn].
  rewrite H in Hn. cbn [calls fst] in Hn. subst l. clear H.
  induction (firstn n _) as [|b bs IH]; [reflexivity|exact IH].
Qed.

Lemma persisted_values_are_averages id l o table rid p :
  process_influencer fuel w cutoff_date id = (l, o) ->
  In (AirtablePatch table rid p) l ->
  exists video_stats,
    let m := fst (collect_metrics w video_stats no_metrics) in
    table = influencer_table /\ rid = id /\
    average (longform_views m) = Ok (LGVPV90 p) /\
    average (longform_likes m) = Ok (LGLPV90 p) /\
    average (longform_comments m) = Ok (LGCPV90 p).
Proof.
  unfold process_influencer, get_airtable_record, update_airtable_record.
  unfold bind, catch, request, lift, ret, raise. intros H Hin.
  assert (Hno : forall l', forallb (fun x => negb (is_patch x)) l' = true ->
                   ~ In (AirtablePatch table rid p) l').
  { intros l' Hl' Hi. rewrite forallb_forall in Hl'. apply Hl' in Hi. discriminate Hi. }
  repeat (match type of H with
          | context [match ?x with _ => _ end] =>
              lazymatch x with
              | context [match _ with _ => _ end] => fail
              | _ => destruct x eqn:?
              end
          end; cbv beta iota in H).
  all: injection H as <- _.
  all: repeat match goal with
       | E : get_uploads_playlist_id _ _ = _ |- _ => apply uploads_sends_no_patch, Hno in E
       | E : get_recent_video_ids _ _ _ _ = _ |- _ => apply recent_sends_no_patch, Hno in E
       | E : get_video_stats_batch _ _ = _ |- _ => apply stats_sends_no_patch, Hno in E
       end.
  all: repeat (cbn [In app] in Hin || rewrite in_app_iff in Hin).
  all: decompose [or] Hin; try discriminate; try contradiction.
  all: match goal with
       | E : AirtablePatch _ _ _ = AirtablePatch _ _ _ |- _ =>
           injection E as <- <- <-
       end.
  all: match goal with
       | E : average (longform_likes (fst (collect_metrics _ ?v _))) = _ |- _ =>
           exists v
       end.
  all: cbn [LGVPV90 LGLPV90 LGCPV90];
    repeat split; try assumption; congruence.
Qed.
End Persisted.

(** C7 (as amended).  An influencer whose record has no channel id, or
    an empty one, is reported as [skipped] with the reason
    ["No YouTube Channel ID"], and the only request made for that
    influencer is the read of its record: nothing is asked of the
    video platform. *)
Theorem missing_channel_is_skipped
  (fuel : nat) (w : world) (cutoff_date : datetime) (id : string) (f : fields) :
  airtable_get w influencer_table id = Ok f ->
  truthy (YouTube_Channel_ID f) = false ->
  process_influencer fuel w cutoff_date id
  = ([AirtableGet influencer_table id],
     Returns {| influencerId := id; status := "skipped";
                reason := Some "No YouTube Channel ID" |}).
Proof. apply process_influencer_no_channel. Qed.

Lemma missing_channel_is_skipped_witness :
  process_influencer 0 Sample.deployment
    {| instant := Sample.now - ninety_days; aware := true |} "recE"
  = ([AirtableGet influencer_table "recE"],
     Returns {| influencerId := "recE"; status := "skipped";
                reason := Some "No YouTube Channel ID" |}).
Proof.
  apply (missing_channel_is_skipped 0 Sample.deployment _ "recE"
           (Sample.influencer (Some ""))); reflexivity.
Defined.

(** C7 (as stated) fails on the text of the reason: the entry of an
    influencer without a channel id does not read ["no channel id"]. *)
Lemma missing_channel_reason_differs :
  airtable_get Sample.deployment influencer_table "recB"
    = Ok (Sample.influencer None) /\
  outcome_of (process_influencer 0 Sample.deployment
                {| instant := Sample.now - ninety_days; aware := true |} "recB")
    <> Returns {| influencerId := "recB"; status := "skipped";
                  reason := Some "no channel id" |}.
Proof.
  split; [reflexivity|].
  vm_compute. intros H. discriminate H.
Qed.

(* ===================================================================== *)
(** * The endpoint *)
(* ===================================================================== *)

Section Endpoint.

Variable fuel : nat.
Variable w : world.

Lemma endpoint_missing_id data :
  match data with Some d => campaignRecordId d | None => None end = None ->
  update_engagement_for_campaign fuel w data
  = ([], Returns {| status_code := 400;
                    json := ErrorBody "Missing 'campaignRecordId' in request body" |}).
Proof. intros H. unfold update_engagement_for_campaign. rewrite H. reflexivity. Qed.

Lemma endpoint_fetch_failed d id e :
  campaignRecordId d = Some id ->
  airtable_get w (campaign_table_of d) id = Raise e ->
  update_engagement_for_campaign fuel w (Some d)
  = ([AirtableGet (campaign_table_of d) id],
     Returns {| status_code := 500;
                json := ErrorBody ("Failed to fetch campaign record: "
                                   ++ exn_text e) |}).
Proof.
  intros Hid H. unfold update_engagement_for_campaign, get_airtable_record, request.
  rewrite Hid. fold (campaign_table_of d). rewrite H. reflexivity.
Qed.

(** Once the campaign record is read, the answer is decided by the
    list of linked influencers and by the pass over it. *)
Lemma endpoint_fetched d id f :
  campaignRecordId d = Some id ->
  airtable_get w (campaign_table_of d) id = Ok f ->
  update_engagement_for_campaign fuel w (Some d)
  = match linked_influencers f with
    | [] =>
        ([AirtableGet (campaign_table_of d) id],
         Returns {| status_code := 200;
                    json := MessageBody
                              "No linked influencers found for this campaign." |})
    | _ =>
        bind (request (AirtableGet (campaign_table_of d) id) (Ok tt))
          (fun _ =>
             bind (for_influencers fuel w
                     {| instant := utcnow w - ninety_days; aware := true |}
                     (linked_influencers f) [])
               (fun update_results =>
                  ret {| status_code := 200;
                         json := ReportBody "Engagement update complete."
                                   id update_results |}))
    end.
Proof.
  intros Hid H. unfold update_engagement_for_campaign, get_airtable_record, request.
  rewrite Hid. fold (campaign_table_of d). rewrite H.
  cbn [bind catch ret]. fold (linked_influencers f).
  destruct (linked_influencers f) as [|i rest]; [reflexivity|].
  set (run := for_influencers _ _ _ _ _). unfold bind.
  destruct run as [l [r|x|]]; cbn [app]; rewrite ?app_nil_r; reflexivity.
Qed.

End Endpoint.

(** The sample campaign [campOne]: one influencer, two long-form
    videos (views 100 and 200, likes 10 and 20, comments 1 and 3) and a
    short one that is left out.  Two playlist pages are requested, the
    three identifiers go out in one batch, and the averages 150, 15 and
    2 are written back. *)
Example sample_campaign_is_updated :
  update_engagement_for_campaign 2 Sample.deployment (Sample.post "campOne")
  = ([ AirtableGet "Campaigns" "campOne"; AirtableGet "Influencers" "recA";
       YouTubeChannels "UC_A"; YouTubePlaylistItems "UU_A" None;
       YouTubePlaylistItems "UU_A" (Some "tok2");
       YouTubeVideos ["vid1"; "vid2"; "vid3"];
       AirtablePatch "Influencers" "recA"
         {| LGVPV90 := 150; LGLPV90 := 15; LGCPV90 := 2 |} ],
     Returns {| status_code := 200;
                json := ReportBody "Engagement update complete." "campOne"
                          [success "recA"] |}).
Proof. vm_compute. reflexivity. Qed.

(** C8.  When the campaign record links no influencer (the field is
    absent or empty) the endpoint answers 200 with the message that no
    linked influencer was found, and the read of the campaign record is
    the only request made. *)
Theorem no_linked_influencers
  (fuel : nat) (w : world) (d : request_json) (id : string) (f : fields) :
  campaignRecordId d = Some id ->
  airtable_get w (campaign_table_of d) id = Ok f ->
  Creator f = None \/ Creator f = Some [] ->
  update_engagement_for_campaign fuel w (Some d)
  = ([AirtableGet (campaign_table_of d) id],
     Returns {| status_code := 200;
                json := MessageBody
                          "No linked influencers found for this campaign." |}).
Proof.
  intros Hid H Hnone. rewrite (endpoint_fetched fuel w d id f Hid H).
  unfold linked_influencers. destruct Hnone as [-> | ->]; reflexivity.
Qed.

Lemma no_linked_influencers_witness :
  update_engagement_for_campaign 0 Sample.deployment (Sample.post "campBare")
  = ([AirtableGet "Campaigns" "campBare"],
     Returns {| status_code := 200;
                json := MessageBody
                          "No linked influencers found for this campaign." |}).
Proof.
  apply (no_linked_influencers 0 Sample.deployment
           {| campaignRecordId := Some "campBare"; campaignTableName := None |}
           "campBare" (Sample.campaign None)).
  - reflexivity.
  - reflexivity.
  - left. reflexivity.
Defined.

(** C9.  Whenever the endpoint answers with the per-influencer report,
    the request named a campaign whose record was read and links at
    least one influencer, the answer is a 200, and the report has one
    entry per linked influencer, in the order of the campaign's list,
    each with the status [success], [skipped] or [failed]. *)
Theorem report_lists_every_influencer
  (fuel : nat) (w : world) (data : option request_json)
  (sent : list call) (answer : response)
  (message id : string) (results : list entry) :
  update_engagement_for_campaign fuel w data = (sent, Returns answer) ->
  json answer = ReportBody message id results ->
  exists d f,
    data = Some d /\
    campaignRecordId d = Some id /\
    airtable_get w (campaign_table_of d) id = Ok f /\
    linked_influencers f <> [] /\
    status_code answer = 200 /\
    map influencerId results = linked_influencers f /\
    Forall known_status results.
Proof.
  intros Hrun Hjson.
  destruct data as [d|];
    [|rewrite endpoint_missing_id in Hrun by reflexivity;
      injection Hrun as _ <-; discriminate Hjson].
  destruct (campaignRecordId d) as [cid|] eqn:Hid;
    [|rewrite endpoint_missing_id in Hrun by exact Hid;
      injection Hrun as _ <-; discriminate Hjson].
  destruct (airtable_get w (campaign_table_of d) cid) as [f|e] eqn:Hget;
    [|rewrite (endpoint_fetch_failed fuel w d cid e Hid Hget) in Hrun;
      injection Hrun as _ <-; discriminate Hjson].
  rewrite (endpoint_fetched fuel w d cid f Hid Hget) in Hrun.
  destruct (linked_influencers f) as [|i rest] eqn:Hlinked;
    [injection Hrun as _ <-; discriminate Hjson|].
  unfold bind, request, ret in Hrun.
  destruct (for_influencers fuel w _ (i :: rest) []) as [l [res|x|]] eqn:Hfor;
    try discriminate Hrun.
  injection Hrun as _ <-. cbn [json] in Hjson. injection Hjson as _ <- <-.
  apply for_influencers_entries in Hfor.
  destruct Hfor as (new & -> & Hids & Hst). cbn [app].
  exists d, f. rewrite Hlinked. repeat split; auto. discriminate.
Qed.

Lemma report_lists_every_influencer_witness :
  exists d f,
    Sample.post "campThree" = Some d /\
    campaignRecordId d = Some "campThree" /\
    airtable_get Sample.deployment (campaign_table_of d) "campThree" = Ok f /\
    linked_influencers f <> [] /\
    200 = 200 /\
    map influencerId
      [ skipped "recB" "No YouTube Channel ID";
        failed "recD" "Failed to fetch influencer record: 404 Client Error: Not Found";
        skipped "recE" "No YouTube Channel ID" ]
    = linked_influencers f /\
    Forall known_status
      [ skipped "recB" "No YouTube Channel ID";
        failed "recD" "Failed to fetch influencer record: 404 Client Error: Not Found";
        skipped "recE" "No YouTube Channel ID" ].
Proof.
  apply (report_lists_every_influencer 0 Sample.deployment
           (Sample.post "campThree")
           [ AirtableGet "Campaigns" "campThree";
             AirtableGet "Influencers" "recB";
             AirtableGet "Influencers" "recD";
             AirtableGet "Influencers" "recE" ]
           {| status_code := 200;
              json := ReportBody "Engagement update complete." "campThree"
                [ skipped "recB" "No YouTube Channel ID";
                  failed "recD" "Failed to fetch influencer record: 404 Client Error: Not Found";
                  skipped "recE" "No YouTube Channel ID" ] |}
           "Engagement update complete." "campThree").
  - vm_compute. reflexivity.
  - reflexivity.
Defined.

Section LocalOutcomes.

Variable fuel : nat.
Variable w : world.
Variable cutoff_date : datetime.

Lemma for_influencers_settled ids : forall acc,
  Forall (settled_at_fetch w) ids ->
  exists new,
    for_influencers fuel w cutoff_date ids acc
    = (map (AirtableGet influencer_table) ids, Returns (acc ++ new)%list) /\
    map influencerId new = ids /\
    Forall failed_or_skipped new.
Proof.
  induction ids as [|id ids IH]; intros acc H; cbn [for_influencers].
  - exists []. now rewrite app_nil_r.
  - inversion H as [|? ? Hid Hrest]; subst.
    assert (Hone : exists e,
               process_influencer fuel w cutoff_date id
               = ([AirtableGet influencer_table id], Returns e) /\
               influencerId e = id /\ failed_or_skipped e).
    { destruct Hid as [[e He]|(f & Hf & Hc)].
      - eexists. split; [apply process_influencer_fetch_failed; exact He|].
        split; [reflexivity|left; reflexivity].
      - eexists. split; [apply (process_influencer_no_channel _ _ _ _ f); assumption|].
        split; [reflexivity|right; reflexivity]. }
    destruct Hone as (e & -> & Hide & Hfs).
    destruct (IH (acc ++ [e])%list Hrest) as (new & Hrun & Hids & Hall).
    unfold bind. rewrite Hrun. exists (e :: new).
    rewrite <- app_assoc. cbn [app map].
    repeat split; [congruence|]. now constructor.
Qed.

End LocalOutcomes.

(** C2 (as amended).  The endpoint answers 400 when the body has no
    [campaignRecordId] and 500 when reading the campaign record raises.
    When the record links no influencer it answers 200 with a message
    and no report.  Otherwise, when the pass over the linked
    influencers completes, it answers 200 with the report of that pass;
    in particular it does so, with one entry per influencer, when every
    influencer failed at the read of its record or was skipped for want
    of a channel id. *)
Theorem endpoint_answers (fuel : nat) (w : world) :
  (forall data,
     match data with Some d => campaignRecordId d | None => None end = None ->
     update_engagement_for_campaign fuel w data
     = ([], Returns {| status_code := 400;
                       json := ErrorBody
                                 "Missing 'campaignRecordId' in request body" |})) /\
  (forall d id e,
     campaignRecordId d = Some id ->
     airtable_get w (campaign_table_of d) id = Raise e ->
     update_engagement_for_campaign fuel w (Some d)
     = ([AirtableGet (campaign_table_of d) id],
        Returns {| status_code := 500;
                   json := ErrorBody ("Failed to fetch campaign record: "
                                      ++ exn_text e) |})) /\
  (forall d id f,
     campaignRecordId d = Some id ->
     airtable_get w (campaign_table_of d) id = Ok f ->
     linked_influencers f = [] ->
     update_engagement_for_campaign fuel w (Some d)
     = ([AirtableGet (campaign_table_of d) id],
        Returns {| status_code := 200;
                   json := MessageBody
                             "No linked influencers found for this campaign." |})) /\
  (forall d id f sent results,
     campaignRecordId d = Some id ->
     airtable_get w (campaign_table_of d) id = Ok f ->
     linked_influencers f <> [] ->
     for_influencers fuel w (cutoff_of w) (linked_influencers f) []
       = (sent, Returns results) ->
     update_engagement_for_campaign fuel w (Some d)
     = (AirtableGet (campaign_table_of d) id :: sent,
        Returns {| status_code := 200;
                   json := ReportBody "Engagement update complete." id results |})) /\
  (forall d id f,
     campaignRecordId d = Some id ->
     airtable_get w (campaign_table_of d) id = Ok f ->
     linked_influencers f <> [] ->
     Forall (settled_at_fetch w) (linked_influencers f) ->
     exists results,
       update_engagement_for_campaign fuel w (Some d)
       = (AirtableGet (campaign_table_of d) id
            :: map (AirtableGet influencer_table) (linked_influencers f),
          Returns {| status_code := 200;
                     json := ReportBody "Engagement update complete." id results |}) /\
       map influencerId results = linked_influencers f /\
       Forall failed_or_skipped results).
Proof.
  assert (Hpass : forall d id f sent results,
     campaignRecordId d = Some id ->
     airtable_get w (campaign_table_of d) id = Ok f ->
     linked_influencers f <> [] ->
     for_influencers fuel w (cutoff_of w) (linked_influencers f) []
       = (sent, Returns results) ->
     update_engagement_for_campaign fuel w (Some d)
     = (AirtableGet (campaign_table_of d) id :: sent,
        Returns {| status_code := 200;
                   json := ReportBody "Engagement update complete." id results |})).
  { intros d id f sent results Hid Hget Hne Hfor.
    rewrite (endpoint_fetched fuel w d id f Hid Hget).
    destruct (linked_influencers f) as [|i rest] eqn:E; [congruence|].
    unfold cutoff_of in Hfor. unfold bind, request, ret.
    rewrite Hfor. cbn [app]. now rewrite app_nil_r. }
  split; [apply endpoint_missing_id|].
  split; [apply endpoint_fetch_failed|].
  split.
  { intros d id f Hid Hget Hnil.
    rewrite (endpoint_fetched fuel w d id f Hid Hget), Hnil. reflexivity. }
  split; [exact Hpass|].
  intros d id f Hid Hget Hne Hall.
  destruct (for_influencers_settled fuel w (cutoff_of w) (linked_influencers f) [] Hall)
    as (new & Hrun & Hids & Hst).
  exists new. split; [|split; assumption].
  apply (Hpass d id f _ _ Hid Hget Hne Hrun).
Qed.

Lemma endpoint_answers_witness :
  exists results,
    update_engagement_for_campaign 0 Sample.deployment (Sample.post "campThree")
    = ([ AirtableGet "Campaigns" "campThree"; AirtableGet "Influencers" "recB";
         AirtableGet "Influencers" "recD"; AirtableGet "Influencers" "recE" ],
       Returns {| status_code := 200;
                  json := ReportBody "Engagement update complete." "campThree"
                            results |}) /\
    map influencerId results = ["recB"; "recD"; "recE"] /\
    Forall failed_or_skipped results.
Proof.
  destruct (endpoint_answers 0 Sample.deployment) as (_ & _ & _ & _ & H).
  apply (H {| campaignRecordId := Some "campThree"; campaignTableName := None |}
           "campThree" (Sample.campaign (Some ["recB"; "recD"; "recE"]))).
  - reflexivity.
  - reflexivity.
  - discriminate.
  - apply Forall_cons; [|apply Forall_cons; [|apply Forall_cons; [|apply Forall_nil]]].
    + right. exists (Sample.influencer None). split; reflexivity.
    + left. eexists. reflexivity.
    + right. exists (Sample.influencer (Some "")). split; reflexivity.
Defined.

(** C2 (as stated) fails for a campaign that links no influencer: the
    body names a campaign, reading its record does not raise, and the
    200 that is answered carries a message, not a report. *)
Lemma empty_campaign_has_no_report :
  airtable_get Sample.deployment "Campaigns" "campEmpty"
    = Ok (Sample.campaign (Some [])) /\
  exists sent answer,
    update_engagement_for_campaign 0 Sample.deployment (Sample.post "campEmpty")
      = (sent, Returns answer) /\
    status_code answer = 200 /\
    forall message id results, json answer <> ReportBody message id results.
Proof.
  split; [reflexivity|].
  eexists. eexists. split; [vm_compute; reflexivity|].
  split; [reflexivity|]. intros message id results H. discriminate H.
Qed.

(** C1 does not hold of the code.  The campaign [campTwo] links [recC]
    and then [recB]; the channel lookup for [recC] is refused by the
    video platform.  The error is not turned into a report entry: it
    leaves the request handler, no report is produced and [recB] is
    never read. *)
Theorem video_platform_failure_escapes :
  update_engagement_for_campaign 5 Sample.deployment (Sample.post "campTwo")
  = ([ AirtableGet "Campaigns" "campTwo"; AirtableGet "Influencers" "recC";
       YouTubeChannels "UC_C" ],
     Raises (Sample.http_error "403 Client Error: Forbidden")).
Proof. vm_compute. reflexivity. Qed.

(* ===================================================================== *)
(** * More on the pagination *)
(* ===================================================================== *)

Section PaginationRequests.

Variable w : world.
Variable playlist_id : string.
Variable cutoff_date : datetime.

Lemma loop_step fuel acc token :
  get_recent_video_ids_loop (S fuel) w playlist_id cutoff_date acc token
  = bind (request (YouTubePlaylistItems playlist_id
                     (if truthy token then token else None))
                  (youtube_playlist_items w playlist_id
                     (if truthy token then token else None)))
      (fun data =>
         bind (lift (scan_items w cutoff_date (items data) acc false))
           (fun scanned =>
              if negb (snd scanned) then ret (fst scanned)
              else if negb (truthy (nextPageToken data)) then ret (fst scanned)
              else get_recent_video_ids_loop fuel w playlist_id cutoff_date
                     (fst scanned) (nextPageToken data))).
Proof.
  cbn [get_recent_video_ids_loop]. unfold bind, request, lift.
  destruct (youtube_playlist_items w playlist_id _) as [p|e]; [|reflexivity].
  destruct (scan_items w cutoff_date (items p) acc false) as [[ids found]|e];
    reflexivity.
Qed.

Lemma loop_requests fuel : forall acc token,
  token = None \/ truthy token = true ->
  exists tokens,
    calls (get_recent_video_ids_loop (S fuel) w playlist_id cutoff_date acc token)
    = YouTubePlaylistItems playlist_id token
        :: map (fun t => YouTubePlaylistItems playlist_id (Some t)) tokens /\
    Forall (fun t => t <> "") tokens /\
    (List.length tokens <= fuel)%nat.
Proof.
  induction fuel as [|fuel IH]; intros acc token Htoken;
    rewrite loop_step;
    assert (Etok : (if truthy token then token else None) = token)
      by (destruct Htoken as [-> | ->]; reflexivity);
    rewrite Etok; unfold bind, request, lift, ret, raise, calls.
  - exists []. split; [|split; [constructor|apply le_n]].
    destruct (youtube_playlist_items w playlist_id token) as [p|e]; [|reflexivity].
    destruct (scan_items w cutoff_date (items p) acc false) as [[ids found]|e];
      [|reflexivity].
    cbn [fst snd]. destruct (negb found); [reflexivity|].
    destruct (negb (truthy (nextPageToken p))); reflexivity.
  - destruct (youtube_playlist_items w playlist_id token) as [p|e];
      [|exists []; split; [reflexivity|split; [constructor|apply Nat.le_0_l]]].
    destruct (scan_items w cutoff_date (items p) acc false) as [[ids found]|e];
      [|exists []; split; [reflexivity|split; [constructor|apply Nat.le_0_l]]].
    cbn [fst snd]. destruct (negb found);
      [exists []; split; [reflexivity|split; [constructor|apply Nat.le_0_l]]|].
    destruct (truthy (nextPageToken p)) eqn:Hnext; cbn [negb];
      [|exists []; split; [reflexivity|split; [constructor|apply Nat.le_0_l]]].
    destruct (nextPageToken p) as [t|] eqn:Ht; [|discriminate Hnext].
    destruct (IH ids (Some t) (or_intror Hnext)) as (tokens & Hc & Hne & Hlen).
    unfold calls in Hc.
    destruct (get_recent_video_ids_loop (S fuel) w playlist_id cutoff_date ids (Some t))
      as [l o].
    cbn [fst] in *. subst l. exists (t :: tokens).
    split; [reflexivity|]. split.
    + constructor; [|exact Hne].
      intros ->. discriminate Hnext.
    + cbn [List.length]. lia.
Qed.

End PaginationRequests.

(** X1.  Whatever the video platform answers, the requests of
    [get_recent_video_ids] are playlist-item requests for the playlist
    it was given: the first without a page token, each later one with a
    non-empty token, and never more requests than the bound on the
    pages. *)
Theorem recent_video_requests
  (fuel : nat) (w : world) (playlist_id : string) (cutoff_date : datetime) :
  exists tokens,
    calls (get_recent_video_ids (S fuel) w playlist_id cutoff_date)
    = YouTubePlaylistItems playlist_id None
        :: map (fun t => YouTubePlaylistItems playlist_id (Some t)) tokens /\
    Forall (fun t => t <> "") tokens /\
    (List.length tokens <= fuel)%nat.
Proof.
  apply (loop_requests w playlist_id cutoff_date fuel [] None). left. reflexivity.
Qed.

(** X2.  The scan of one page only appends to the identifiers gathered
    so far, at most one per item, and the flag it returns is set
    exactly when it was set before or at least one identifier was
    appended: a page that adds nothing ends the pagination. *)
Theorem scan_items_appends
  (w : world) (cutoff_date : datetime) (its : list playlist_item) :
  forall (acc : list string) (found : bool) (ids : list string) (found' : bool),
  scan_items w cutoff_date its acc found = Ok (ids, found') ->
  exists new,
    ids = (acc ++ new)%list /\
    (List.length new <= List.length its)%nat /\
    found' = found || negb (Nat.eqb (List.length new) 0).
Proof.
  induction its as [|item rest IH]; intros acc found ids found' H;
    cbn [scan_items] in H.
  - injection H as <- <-. exists []. rewrite app_nil_r, orb_false_r. auto.
  - unfold rbind in H.
    destruct (subscript "videoPublishedAt" (videoPublishedAt item)) as [raw|e];
      [|discriminate H].
    destruct (dateutil_parse w raw) as [published|e]; [|discriminate H].
    destruct (datetime_ge published cutoff_date) as [[|]|e]; [| |discriminate H].
    + destruct (subscript "videoId" (videoId item)) as [vid|e]; [|discriminate H].
      apply IH in H. destruct H as (new & -> & Hlen & ->).
      exists (vid :: new). rewrite <- app_assoc. cbn [app List.length Nat.eqb negb].
      split; [reflexivity|]. split; [lia|]. now rewrite orb_true_r.
    + apply IH in H. destruct H as (new & -> & Hlen & ->).
      exists new. split; [reflexivity|]. split; [cbn [List.length]; lia|reflexivity].
Qed.

Lemma scan_items_appends_witness :
  exists new,
    ["old1"; "vid1"; "vid2"; "vid3"] = (["old1"] ++ new)%list /\
    (List.length new <= List.length (items Sample.page_one))%nat /\
    true = false || negb (Nat.eqb (List.length new) 0).
Proof.
  apply (scan_items_appends Sample.deployment (cutoff_of Sample.deployment)
           (items Sample.page_one) ["old1"] false).
  vm_compute. reflexivity.
Defined.

(* ===================================================================== *)
(** * More on the batches *)
(* ===================================================================== *)

Section BatchShape.

Lemma nth_error_batches (ids : list string) (k : nat) (b : list string) :
  nth_error (batches ids) k = Some b ->
  (k < (List.length ids + 49) / 50)%nat /\ b = firstn 50 (skipn (50 * k) ids).
Proof.
  unfold batches, range_by_50. intros H.
  rewrite !nth_error_map in H.
  destruct (nth_error (seq 0 ((List.length ids + 49) / 50)) k) as [j|] eqn:E;
    [|discriminate H].
  assert (Hk : (k < (List.length ids + 49) / 50)%nat).
  { assert (Hs : nth_error (seq 0 ((List.length ids + 49) / 50)) k <> None)
      by (rewrite E; discriminate).
    apply nth_error_Some in Hs. now rewrite length_seq in Hs. }
  pose proof (nth_error_nth _ _ 0%nat E) as Hj.
  rewrite seq_nth in Hj by exact Hk.
  cbn [option_map] in H. injection H as <-. subst j. cbn [Nat.add].
  split; [exact Hk|]. unfold slice. f_equal. lia.
Qed.

Lemma length_batches (ids : list string) :
  List.length (batches ids) = ((List.length ids + 49) / 50)%nat.
Proof. unfold batches, range_by_50. now rewrite !length_map, length_seq. Qed.

Lemma stats_batches_stops (w : world) (ids : list string) (pre : list nat) :
  forall (i : nat) (post : list nat) acc answers e,
    Forall2 (fun b found => youtube_videos w b = Ok found)
            (map (fun i => slice ids i (i + 50)) pre) answers ->
    youtube_videos w (slice ids i (i + 50)) = Raise e ->
    stats_batches w ids (pre ++ i :: post) acc
    = (map YouTubeVideos (map (fun i => slice ids i (i + 50)) (pre ++ [i])),
       Raises e).
Proof.
  induction pre as [|j pre IH]; intros i post acc answers e Hpre Hfail;
    cbn [app stats_batches map].
  - unfold bind, request. rewrite Hfail. reflexivity.
  - cbn [map] in Hpre. inversion Hpre as [|? found ? rest Hj Hrest]; subst.
    unfold bind, request. rewrite Hj.
    rewrite (IH i post _ rest e Hrest Hfail). reflexivity.
Qed.

Lemma split_commas_field (field : string) :
  has_no_comma field -> split_commas field = [field].
Proof.
  unfold has_no_comma. induction field as [|c field IH]; cbn; [reflexivity|].
  intros H. apply andb_true_iff in H. destruct H as [Hc Hrest].
  apply negb_true_iff in Hc. rewrite Hc, (IH Hrest). reflexivity.
Qed.

Lemma split_commas_app (field rest : string) :
  has_no_comma field ->
  split_commas (field ++ String "," rest) = field :: split_commas rest.
Proof.
  unfold has_no_comma. induction field as [|c field IH]; cbn; [reflexivity|].
  intros H. apply andb_true_iff in H. destruct H as [Hc Hrest].
  apply negb_true_iff in Hc. rewrite Hc, (IH Hrest). reflexivity.
Qed.

End BatchShape.

(** X3.  The batches of [get_video_stats_batch] are the consecutive
    slices of 50: there are [ceil(n / 50)] of them for [n] identifiers
    (none for an empty list), the [k]-th is [video_ids[50k : 50k + 50]],
    and every batch but the last holds exactly 50 identifiers. *)
Theorem batches_are_slices_of_50 (video_ids : list string) :
  List.length (batches video_ids) = ((List.length video_ids + 49) / 50)%nat /\
  forall k b,
    nth_error (batches video_ids) k = Some b ->
    b = firstn 50 (skipn (50 * k) video_ids) /\
    ((S k < List.length (batches video_ids))%nat -> List.length b = 50%nat).
Proof.
  split; [apply length_batches|].
  intros k b H. apply nth_error_batches in H. destruct H as [Hk ->].
  split; [reflexivity|]. rewrite length_batches. intros Hlast.
  rewrite length_firstn, length_skipn.
  pose proof (Nat.div_mod_eq (List.length video_ids + 49) 50).
  pose proof (Nat.mod_upper_bound (List.length video_ids + 49) 50). lia.
Qed.

Lemma batches_are_slices_of_50_witness :
  repeat "vid1" 50 = firstn 50 (skipn (50 * 1) (repeat "vid1" 101)) /\
  ((2 < List.length (batches (repeat "vid1" 101)))%nat ->
   List.length (repeat "vid1" 50) = 50%nat).
Proof.
  destruct (batches_are_slices_of_50 (repeat "vid1" 101)) as [_ H].
  apply (H 1%nat (repeat "vid1" 50)). reflexivity.
Defined.

(** X4.  When the request for a batch raises while those before it were
    answered, [get_video_stats_batch] raises that exception: the
    answers already received are dropped and no later batch is
    requested. *)
Theorem video_stats_stop_at_first_failure
  (w : world) (video_ids : list string) (k : nat) (b : list string)
  (answers : list (list video)) (e : exn) :
  nth_error (batches video_ids) k = Some b ->
  Forall2 (fun b found => youtube_videos w b = Ok found)
          (firstn k (batches video_ids)) answers ->
  youtube_videos w b = Raise e ->
  get_video_stats_batch w video_ids
  = (map YouTubeVideos (firstn (S k) (batches video_ids)), Raises e).
Proof.
  intros Hk Hpre Hfail. unfold get_video_stats_batch.
  unfold batches in *.
  set (starts := range_by_50 (List.length video_ids)) in *.
  rewrite nth_error_map in Hk.
  destruct (nth_error starts k) as [i|] eqn:Ei; [|discriminate Hk].
  cbn [option_map] in Hk. injection Hk as <-.
  destruct (nth_error_split starts k Ei) as (pre & post & Hsplit & Hlen).
  rewrite Hsplit in *. clear Ei.
  rewrite map_app, firstn_app in Hpre.
  rewrite length_map, Hlen, Nat.sub_diag in Hpre. cbn [firstn] in Hpre.
  rewrite app_nil_r in Hpre.
  rewrite firstn_all2 in Hpre by (rewrite length_map; lia).
  rewrite (stats_batches_stops w video_ids pre i post [] answers e Hpre Hfail).
  f_equal. f_equal.
  rewrite !map_app. cbn [map].
  replace (S k) with (List.length (map (fun i0 => slice video_ids i0 (i0 + 50)) pre) + 1)%nat
    by (rewrite length_map; lia).
  rewrite firstn_app_2. reflexivity.
Qed.

Lemma video_stats_stop_at_first_failure_witness :
  get_video_stats_batch Cases.deployment (repeat "f1" 50 ++ ["gone"; "f2"])
  = ([ YouTubeVideos (repeat "f1" 50); YouTubeVideos ["gone"; "f2"] ],
     Raises Cases.unavailable).
Proof.
  apply (video_stats_stop_at_first_failure Cases.deployment
           (repeat "f1" 50 ++ ["gone"; "f2"]) 1 ["gone"; "f2"]
           [Sample.lookup_all (repeat "f1" 50) Cases.videos]).
  - reflexivity.
  - repeat constructor.
  - reflexivity.
Defined.

(** X5.  The [id] parameter of a videos request determines the batch:
    for a non-empty batch of identifiers without commas, cutting the
    parameter at its commas gives back the identifiers, in order. *)
Theorem id_param_reads_back (batch : list string) :
  batch <> [] ->
  Forall has_no_comma batch ->
  split_commas (id_param batch) = batch.
Proof.
  unfold id_param. induction batch as [|x rest IH]; [congruence|].
  intros _ H. inversion H as [|? ? Hx Hrest]; subst.
  destruct rest as [|y rest'].
  - cbn [String.concat]. now apply split_commas_field.
  - change (String.concat "," (x :: y :: rest'))
      with (x ++ String "," (String.concat "," (y :: rest'))).
    rewrite split_commas_app by exact Hx.
    f_equal. apply IH; [discriminate|exact Hrest].
Qed.

Lemma id_param_reads_back_witness :
  split_commas (id_param ["vid1"; "vid2"; "vid3"]) = ["vid1"; "vid2"; "vid3"].
Proof.
  apply id_param_reads_back.
  - discriminate.
  - repeat constructor.
Defined.

(* ===================================================================== *)
(** * More on the collected metrics *)
(* ===================================================================== *)

Section Collected.

Variable w : world.

Lemma collect_metrics_cons v rest st :
  fst (collect_metrics w (v :: rest) st)
  = fst (collect_metrics w rest (fst (collect_video w v st))).
Proof.
  cbn [collect_metrics]. unfold bseq.
  pose proof (collect_video_returns w v st) as H.
  destruct (collect_video w v st) as [st' r]. cbn [snd fst] in *. now subst r.
Qed.

Lemma collect_video_not_long v st :
  counted_as_long w v = false -> fst (collect_video w v st) = st.
Proof.
  unfold counted_as_long, collect_video, collect_try, bseq, bpure, subscript.
  destruct (duration v) as [d|]; [|reflexivity].
  destruct (is_longform w d) as [[|]|e]; [discriminate|reflexivity|reflexivity].
Qed.

Lemma collect_video_long v st n :
  counted_as_long w v = true -> counts_parse w v n ->
  fst (collect_video w v st)
  = {| longform_views := (longform_views st ++ [fst (fst n)])%list;
       longform_likes := (longform_likes st ++ [snd (fst n)])%list;
       longform_comments := (longform_comments st ++ [snd n])%list |}.
Proof.
  unfold counted_as_long, counts_parse, statistics_of.
  unfold collect_video, collect_try, bseq, bpure, subscript.
  destruct (duration v) as [d|]; [|discriminate].
  destruct (is_longform w d) as [[|]|e]; [|discriminate|discriminate].
  intros _ (Hv & Hl & Hc). rewrite Hv, Hl, Hc. reflexivity.
Qed.

Lemma collect_video_appends v st :
  exists av al ac,
    fst (collect_video w v st)
    = {| longform_views := (longform_views st ++ av)%list;
         longform_likes := (longform_likes st ++ al)%list;
         longform_comments := (longform_comments st ++ ac)%list |} /\
    (List.length ac <= List.length al <= List.length av)%nat /\
    (List.length av <= 1)%nat.
Proof.
  assert (Hsame : exists av al ac,
    st = {| longform_views := (longform_views st ++ av)%list;
            longform_likes := (longform_likes st ++ al)%list;
            longform_comments := (longform_comments st ++ ac)%list |} /\
    (List.length ac <= List.length al <= List.length av)%nat /\
    (List.length av <= 1)%nat).
  { exists [], [], []. rewrite !app_nil_r. destruct st; cbn. auto. }
  unfold collect_video, collect_try, bseq, bpure, subscript.
  destruct (duration v) as [d|]; [|exact Hsame].
  destruct (is_longform w d) as [[|]|e]; [|exact Hsame|exact Hsame].
  destruct (int_count w (viewCount _)) as [nv|e]; [|exact Hsame].
  cbn [append_views fst snd].
  destruct (int_count w (likeCount _)) as [nl|e].
  - cbn [append_likes fst snd longform_views longform_likes longform_comments].
    destruct (int_count w (commentCount _)) as [nc|e].
    + exists [nv], [nl], [nc]. cbn. auto.
    + exists [nv], [nl], []. rewrite app_nil_r. cbn. auto.
  - exists [nv], [], []. rewrite !app_nil_r. cbn. auto.
Qed.

Lemma collect_metrics_long_only videos : forall st,
  fst (collect_metrics w videos st)
  = fst (collect_metrics w (filter (counted_as_long w) videos) st).
Proof.
  induction videos as [|v rest IH]; intros st; [reflexivity|].
  rewrite collect_metrics_cons. cbn [filter].
  destruct (counted_as_long w v) eqn:E.
  - rewrite collect_metrics_cons. apply IH.
  - rewrite (collect_video_not_long v st E). apply IH.
Qed.

Lemma collect_metrics_rows videos : forall rows st,
  Forall (fun v => counted_as_long w v = true) videos ->
  Forall2 (counts_parse w) videos rows ->
  fst (collect_metrics w videos st)
  = {| longform_views := (longform_views st ++ map (fun n => fst (fst n)) rows)%list;
       longform_likes := (longform_likes st ++ map (fun n => snd (fst n)) rows)%list;
       longform_comments := (longform_comments st ++ map snd rows)%list |}.
Proof.
  induction videos as [|v rest IH]; intros rows st Hlong Hrows;
    inversion Hrows as [|? n ? rows' Hn Hrest]; subst.
  - cbn. rewrite !app_nil_r. now destruct st.
  - inversion Hlong as [|? ? Hv Hl]; subst.
    rewrite collect_metrics_cons, (collect_video_long v st n Hv Hn).
    rewrite (IH rows' _ Hl Hrest).
    cbn [longform_views longform_likes longform_comments map].
    now rewrite <- !app_assoc.
Qed.

End Collected.

(** X6.  The loop over the video details only appends to the three
    lists, and since a video's view count is appended before its like
    count and that before its comment count, there are never more
    comments than likes, more likes than views, or more views than
    videos. *)
Theorem collected_lists_are_nested (w : world) (video_stats : list video) :
  forall st : metrics,
  exists views likes comments,
    fst (collect_metrics w video_stats st)
    = {| longform_views := (longform_views st ++ views)%list;
         longform_likes := (longform_likes st ++ likes)%list;
         longform_comments := (longform_comments st ++ comments)%list |} /\
    (List.length comments <= List.length likes <= List.length views)%nat /\
    (List.length views <= List.length video_stats)%nat.
Proof.
  induction video_stats as [|v rest IH]; intros st.
  - exists [], [], []. rewrite !app_nil_r. destruct st; cbn. auto.
  - rewrite (collect_metrics_cons w).
    destruct (collect_video_appends w v st) as (av & al & ac & -> & Hord & Hone).
    destruct (IH {| longform_views := (longform_views st ++ av)%list;
                    longform_likes := (longform_likes st ++ al)%list;
                    longform_comments := (longform_comments st ++ ac)%list |})
      as (av' & al' & ac' & -> & Hord' & Hlen).
    cbn [longform_views longform_likes longform_comments].
    exists (av ++ av')%list, (al ++ al')%list, (ac ++ ac')%list.
    rewrite !app_assoc. split; [reflexivity|].
    rewrite !length_app. cbn [List.length]. lia.
Qed.

(** X7.  Videos that are not counted as long-form (no duration, a
    duration that does not parse, or one under 180 seconds) have no
    effect on the collected lists: the result is that of the long-form
    videos alone. *)
Theorem short_videos_are_ignored
  (w : world) (video_stats : list video) (st : metrics) :
  fst (collect_metrics w video_stats st)
  = fst (collect_metrics w (filter (counted_as_long w) video_stats) st).
Proof. apply collect_metrics_long_only. Qed.

(** X8.  When the three counts of every long-form video pass [int]
    (absent ones counting as 0), the three lists are the view, like and
    comment counts of the long-form videos, in the order of the
    response, and so have the same length. *)
Theorem clean_counts_are_collected_in_order
  (w : world) (video_stats : list video) (rows : list (Z * Z * Z)) :
  Forall2 (counts_parse w) (filter (counted_as_long w) video_stats) rows ->
  fst (collect_metrics w video_stats no_metrics)
  = {| longform_views := map (fun n => fst (fst n)) rows;
       longform_likes := map (fun n => snd (fst n)) rows;
       longform_comments := map snd rows |}.
Proof.
  intros H. rewrite collect_metrics_long_only.
  rewrite (collect_metrics_rows w _ rows no_metrics); [reflexivity| |exact H].
  apply Forall_forall. intros v Hv. apply filter_In in Hv. tauto.
Qed.

Lemma clean_counts_are_collected_in_order_witness :
  fst (collect_metrics Cases.deployment
         (Sample.lookup_all ["f1"; "s1"; "f2"] Cases.videos) no_metrics)
  = {| longform_views := [100; 200]; longform_likes := [10; 20];
       longform_comments := [1; 3] |}.
Proof.
  apply (clean_counts_are_collected_in_order Cases.deployment
           (Sample.lookup_all ["f1"; "s1"; "f2"] Cases.videos)
           [(100, 10, 1); (200, 20, 3)]).
  repeat constructor.
Defined.

(* ===================================================================== *)
(** * More on the averages *)
(* ===================================================================== *)

Section AverageBounds.

Lemma fold_left_add_shift (l : list Z) : forall a,
  fold_left Z.add l a = a + fold_left Z.add l 0.
Proof.
  induction l as [|x l IH]; intros a; cbn [fold_left]; [lia|].
  rewrite (IH (a + x)), (IH (0 + x)). lia.
Qed.

Lemma py_sum_cons x l : py_sum (x :: l) = x + py_sum l.
Proof. unfold py_sum. cbn [fold_left]. apply fold_left_add_shift. Qed.

Lemma py_sum_between (lo hi : Z) (l : list Z) :
  Forall (fun x => lo <= x <= hi) l ->
  Z.of_nat (List.length l) * lo <= py_sum l <= Z.of_nat (List.length l) * hi.
Proof.
  induction 1 as [|x l Hx _ IH].
  - cbn. lia.
  - rewrite py_sum_cons. cbn [List.length]. lia.
Qed.

Lemma py_sum_permutation (l l' : list Z) :
  Permutation l l' -> py_sum l = py_sum l'.
Proof.
  induction 1 as [|x l l' _ IH|x y l|l l' l'' _ IH1 _ IH2].
  - reflexivity.
  - rewrite !py_sum_cons. lia.
  - rewrite !py_sum_cons. lia.
  - congruence.
Qed.

End AverageBounds.

(** X9.  The average of counts that lie between two non-negative
    bounds, with a sum below [2^53], lies between the same bounds, and
    is the largest integer whose product with the number of counts does
    not exceed their sum. *)
Theorem average_within_bounds (lo hi : Z) (l : list Z) :
  l <> [] ->
  Forall (fun x => lo <= x <= hi) l ->
  0 <= lo ->
  py_sum l < 2 ^ 53 ->
  exists a,
    average l = Ok a /\
    lo <= a <= hi /\
    a * Z.of_nat (List.length l) <= py_sum l < (a + 1) * Z.of_nat (List.length l).
Proof.
  intros Hne Hall Hlo Hsum.
  pose proof (py_sum_between lo hi l Hall) as Hbetween.
  assert (Hn : 0 < Z.of_nat (List.length l))
    by (destruct l; [congruence|cbn [List.length]; lia]).
  assert (Hpos : 0 <= py_sum l) by nia.
  exists (py_sum l / Z.of_nat (List.length l)).
  split.
  - unfold average. change (rbind ?m (fun q => int_of_float q)) with (rbind m int_of_float).
    rewrite int_true_div_small by lia.
    f_equal. apply Z.quot_div_nonneg; lia.
  - pose proof (Z.div_mod (py_sum l) (Z.of_nat (List.length l)) ltac:(lia)) as E.
    pose proof (Z.mod_pos_bound (py_sum l) (Z.of_nat (List.length l)) Hn) as B.
    split; [split|nia].
    + apply Z.div_le_lower_bound; lia.
    + apply Z.div_le_upper_bound; lia.
Qed.

Lemma average_within_bounds_witness :
  exists a,
    average [100; 200; 201] = Ok a /\
    100 <= a <= 201 /\
    a * Z.of_nat (List.length [100; 200; 201]) <= py_sum [100; 200; 201]
      < (a + 1) * Z.of_nat (List.length [100; 200; 201]).
Proof.
  apply (average_within_bounds 100 201 [100; 200; 201]).
  - discriminate.
  - repeat constructor; lia.
  - lia.
  - vm_compute. reflexivity.
Defined.

(** X10.  The average depends on the counts only through their sum and
    their number: reordering the videos does not change it. *)
Theorem average_ignores_order (l l' : list Z) :
  Permutation l l' -> average l = average l'.
Proof.
  intros H. unfold average.
  now rewrite (py_sum_permutation l l' H), (Permutation_length H).
Qed.

Lemma average_ignores_order_witness :
  average [201; 100; 200] = average [100; 200; 201].
Proof.
  apply average_ignores_order.
  apply perm_trans with (l' := [100; 201; 200]).
  - apply perm_swap.
  - apply perm_skip. apply perm_swap.
Defined.

(* ===================================================================== *)
(** * The ways a turn of the loop ends *)
(* ===================================================================== *)

Section Turn.

Variable fuel : nat.
Variable w : world.
Variable cutoff_date : datetime.

(** A turn that got past the read of the record and found a channel id
    goes on with the channel lookup. *)
Lemma turn_after_fetch id f c :
  airtable_get w influencer_table id = Ok f ->
  YouTube_Channel_ID f = Some c -> c <> "" ->
  process_influencer fuel w cutoff_date id
  = bind (request (AirtableGet influencer_table id) (Ok tt)) (fun _ =>
    bind (get_uploads_playlist_id w c) (fun playlist_id =>
    if negb (truthy playlist_id) then
      ret (skipped id "No uploads playlist")
    else
      bind (get_recent_video_ids fuel w
              (match playlist_id with Some p => p | None => "" end) cutoff_date)
        (fun video_ids =>
      match video_ids with
      | [] => ret (skipped id "No recent videos")
      | _ =>
        bind (get_video_stats_batch w video_ids) (fun video_stats =>
        let collected := fst (collect_metrics w video_stats no_metrics) in
        match longform_views collected with
        | [] => ret (skipped id "No longform videos found")
        | _ =>
          bind (lift (average (longform_views collected))) (fun avg_views =>
          bind (lift (average (longform_likes collected))) (fun avg_likes =>
          bind (lift (average (longform_comments collected))) (fun avg_comments =>
          catch
            (bind (update_airtable_record w influencer_table id
                     {| LGVPV90 := avg_views; LGLPV90 := avg_likes;
                        LGCPV90 := avg_comments |})
                  (fun _ => ret (success id)))
            (fun e => ret (failed id
                       ("Failed to update Airtable: " ++ exn_text e))))))
        end)
      end))).
Proof.
  intros Hget Hc Hne.
  unfold process_influencer, get_airtable_record. unfold request at 1 2.
  rewrite Hget. cbn [bind catch ret app]. rewrite Hc.
  assert (Ht : truthy (Some c) = true)
    by (cbn [truthy]; apply negb_true_iff, String.eqb_neq; exact Hne).
  rewrite Ht. cbn [negb].
  destruct (bind (get_uploads_playlist_id w c) _) as [l o]. reflexivity.
Qed.

Lemma turn_no_playlist id f c l1 p :
  airtable_get w influencer_table id = Ok f ->
  YouTube_Channel_ID f = Some c -> c <> "" ->
  get_uploads_playlist_id w c = (l1, Returns p) ->
  truthy p = false ->
  process_influencer fuel w cutoff_date id
  = (AirtableGet influencer_table id :: l1,
     Returns (skipped id "No uploads playlist")).
Proof.
  intros Hget Hc Hne Hup Hp. rewrite (turn_after_fetch id f c Hget Hc Hne).
  unfold request. cbn [bind]. rewrite Hup. cbn [bind]. rewrite Hp.
  cbn [negb ret app]. now rewrite app_nil_r.
Qed.

Lemma turn_no_recent id f c l1 p l2 :
  airtable_get w influencer_table id = Ok f ->
  YouTube_Channel_ID f = Some c -> c <> "" ->
  get_uploads_playlist_id w c = (l1, Returns (Some p)) -> p <> "" ->
  get_recent_video_ids fuel w p cutoff_date = (l2, Returns []) ->
  process_influencer fuel w cutoff_date id
  = (AirtableGet influencer_table id :: l1 ++ l2,
     Returns (skipped id "No recent videos")).
Proof.
  intros Hget Hc Hne Hup Hp Hrec. rewrite (turn_after_fetch id f c Hget Hc Hne).
  assert (Ht : truthy (Some p) = true)
    by (cbn [truthy]; apply negb_true_iff, String.eqb_neq; exact Hp).
  unfold request. cbn [bind]. rewrite Hup. cbn [bind]. rewrite Ht. cbn [negb].
  rewrite Hrec. cbn [bind ret app]. now rewrite app_nil_r.
Qed.

(** The turn from the video details on, once the listing gave
    identifiers. *)
Lemma turn_with_videos id f c l1 p l2 ids :
  airtable_get w influencer_table id = Ok f ->
  YouTube_Channel_ID f = Some c -> c <> "" ->
  get_uploads_playlist_id w c = (l1, Returns (Some p)) -> p <> "" ->
  get_recent_video_ids fuel w p cutoff_date = (l2, Returns ids) -> ids <> [] ->
  process_influencer fuel w cutoff_date id
  = bind (AirtableGet influencer_table id :: l1 ++ l2, Returns tt) (fun _ =>
    bind (get_video_stats_batch w ids) (fun video_stats =>
    let collected := fst (collect_metrics w video_stats no_metrics) in
    match longform_views collected with
    | [] => ret (skipped id "No longform videos found")
    | _ =>
      bind (lift (average (longform_views collected))) (fun avg_views =>
      bind (lift (average (longform_likes collected))) (fun avg_likes =>
      bind (lift (average (longform_comments collected))) (fun avg_comments =>
      catch
        (bind (update_airtable_record w influencer_table id
                 {| LGVPV90 := avg_views; LGLPV90 := avg_likes;
                    LGCPV90 := avg_comments |})
              (fun _ => ret (success id)))
        (fun e => ret (failed id
                   ("Failed to update Airtable: " ++ exn_text e))))))
    end)).
Proof.
  intros Hget Hc Hne Hup Hp Hrec Hids. rewrite (turn_after_fetch id f c Hget Hc Hne).
  assert (Ht : truthy (Some p) = true)
    by (cbn [truthy]; apply negb_true_iff, String.eqb_neq; exact Hp).
  unfold request. cbn [bind]. rewrite Hup. cbn [bind]. rewrite Ht. cbn [negb].
  rewrite Hrec. cbn [bind]. destruct ids as [|i ids]; [congruence|].
  set (k := fun video_stats : list video => _).
  destruct (bind (get_video_stats_batch w (i :: ids)) k) as [l o].
  cbn [app]. now rewrite app_assoc.
Qed.

End Turn.

(** X11.  How a turn of the loop composes its steps when all of them
    succeed: the record, the channel, the listing and the details are
    requested in that order, one update carrying the three averages is
    sent last, and the entry is [success] when the update is accepted
    and [failed], with the text of the exception after
    ["Failed to update Airtable: "], when it raises. *)
Theorem turn_ends_with_the_update
  (fuel : nat) (w : world) (cutoff_date : datetime) (id : string) (f : fields)
  (c p : string) (l1 l2 l3 : list call) (ids : list string)
  (video_stats : list video) (a_views a_likes a_comments : Z) :
  airtable_get w influencer_table id = Ok f ->
  YouTube_Channel_ID f = Some c -> c <> "" ->
  get_uploads_playlist_id w c = (l1, Returns (Some p)) -> p <> "" ->
  get_recent_video_ids fuel w p cutoff_date = (l2, Returns ids) -> ids <> [] ->
  get_video_stats_batch w ids = (l3, Returns video_stats) ->
  longform_views (fst (collect_metrics w video_stats no_metrics)) <> [] ->
  average (longform_views (fst (collect_metrics w video_stats no_metrics)))
    = Ok a_views ->
  average (longform_likes (fst (collect_metrics w video_stats no_metrics)))
    = Ok a_likes ->
  average (longform_comments (fst (collect_metrics w video_stats no_metrics)))
    = Ok a_comments ->
  process_influencer fuel w cutoff_date id
  = ((AirtableGet influencer_table id :: l1 ++ l2 ++ l3
        ++ [AirtablePatch influencer_table id
              {| LGVPV90 := a_views; LGLPV90 := a_likes;
                 LGCPV90 := a_comments |}])%list,
     Returns
       match airtable_patch w influencer_table id
               {| LGVPV90 := a_views; LGLPV90 := a_likes;
                  LGCPV90 := a_comments |} with
       | Ok _ => success id
       | Raise e => failed id ("Failed to update Airtable: " ++ exn_text e)
       end).
Proof.
  intros Hget Hc Hne Hup Hp Hrec Hids Hstats Hviews Hav Hal Hac.
  rewrite (turn_with_videos fuel w cutoff_date id f c l1 p l2 ids
             Hget Hc Hne Hup Hp Hrec Hids).
  cbn [bind]. rewrite Hstats. cbn [bind]. cbv zeta.
  destruct (longform_views (fst (collect_metrics w video_stats no_metrics)))
    as [|v vs] eqn:Ev; [congruence|].
  rewrite Hav, Hal, Hac. cbn [lift ret bind app].
  unfold update_airtable_record, request.
  destruct (airtable_patch w influencer_table id _) as [u|e];
    cbn [bind catch ret app]; rewrite ?app_nil_r, <- ?app_assoc; reflexivity.
Qed.

Lemma turn_ends_with_the_update_witness :
  process_influencer 1 Cases.deployment Cases.cutoff "recLocked"
  = ([ AirtableGet "Influencers" "recLocked"; YouTubeChannels "UC_L";
       YouTubePlaylistItems "UU_L" None; YouTubeVideos ["l1"];
       AirtablePatch "Influencers" "recLocked"
         {| LGVPV90 := 7; LGLPV90 := 7; LGCPV90 := 7 |} ],
     Returns (failed "recLocked"
                "Failed to update Airtable: 422 Client Error: Unprocessable Entity")).
Proof.
  apply (turn_ends_with_the_update 1 Cases.deployment Cases.cutoff "recLocked"
           (Sample.influencer (Some "UC_L")) "UC_L" "UU_L"
           [YouTubeChannels "UC_L"] [YouTubePlaylistItems "UU_L" None]
           [YouTubeVideos ["l1"]] ["l1"]
           [Sample.counted "PT10M" "7" "7" "7"] 7 7 7);
    try reflexivity; discriminate.
Defined.

(** X12.  The three ways a turn is skipped after the channel id was
    found: the channel lookup gives no uploads playlist (no listing is
    requested), the listing gives no recent video (no details are
    requested), or no video is long-form.  In each case the entry is
    [skipped] with the reason of that step and nothing is written
    back. *)
Theorem turn_skips
  (fuel : nat) (w : world) (cutoff_date : datetime) (id : string) (f : fields)
  (c : string) :
  airtable_get w influencer_table id = Ok f ->
  YouTube_Channel_ID f = Some c -> c <> "" ->
  (forall l1 p,
     get_uploads_playlist_id w c = (l1, Returns p) -> truthy p = false ->
     process_influencer fuel w cutoff_date id
     = (AirtableGet influencer_table id :: l1,
        Returns (skipped id "No uploads playlist"))) /\
  (forall l1 p l2,
     get_uploads_playlist_id w c = (l1, Returns (Some p)) -> p <> "" ->
     get_recent_video_ids fuel w p cutoff_date = (l2, Returns []) ->
     process_influencer fuel w cutoff_date id
     = ((AirtableGet influencer_table id :: l1 ++ l2)%list,
        Returns (skipped id "No recent videos"))) /\
  (forall l1 p l2 ids l3 video_stats,
     get_uploads_playlist_id w c = (l1, Returns (Some p)) -> p <> "" ->
     get_recent_video_ids fuel w p cutoff_date = (l2, Returns ids) -> ids <> [] ->
     get_video_stats_batch w ids = (l3, Returns video_stats) ->
     longform_views (fst (collect_metrics w video_stats no_metrics)) = [] ->
     process_influencer fuel w cutoff_date id
     = ((AirtableGet influencer_table id :: l1 ++ l2 ++ l3)%list,
        Returns (skipped id "No longform videos found"))).
Proof.
  intros Hget Hc Hne. split; [|split].
  - intros l1 p. apply (turn_no_playlist fuel w cutoff_date id f c l1 p Hget Hc Hne).
  - intros l1 p l2. apply (turn_no_recent fuel w cutoff_date id f c l1 p l2 Hget Hc Hne).
  - intros l1 p l2 ids l3 video_stats Hup Hp Hrec Hids Hstats Hnone.
    rewrite (turn_with_videos fuel w cutoff_date id f c l1 p l2 ids
               Hget Hc Hne Hup Hp Hrec Hids).
    cbn [bind]. rewrite Hstats. cbn [bind]. cbv zeta. rewrite Hnone.
    cbn [ret app]. now rewrite app_nil_r, <- app_assoc.
Qed.

Lemma turn_skips_witness :
  process_influencer 1 Cases.deployment Cases.cutoff "recShort"
  = ([ AirtableGet "Influencers" "recShort"; YouTubeChannels "UC_S";
       YouTubePlaylistItems "UU_S" None; YouTubeVideos ["s1"] ],
     Returns (skipped "recShort" "No longform videos found")).
Proof.
  pose proof (turn_skips 1 Cases.deployment Cases.cutoff "recShort"
                (Sample.influencer (Some "UC_S")) "UC_S"
                eq_refl eq_refl ltac:(discriminate)) as (_ & _ & H).
  apply (H [YouTubeChannels "UC_S"] "UU_S" [YouTubePlaylistItems "UU_S" None]
           ["s1"] [YouTubeVideos ["s1"]] [Sample.counted "PT30S" "900" "90" "9"]);
    try reflexivity; discriminate.
Defined.

(** X13.  A long-form video whose like count (or comment count) is
    rejected by [int] leaves that list shorter than the list of views.
    When the list of likes is left empty while there are views, or the
    likes are averaged and the list of comments is empty, the turn
    raises [ZeroDivisionError] after the details were fetched: no entry
    is reported and nothing is written back. *)
Theorem turn_divides_by_zero
  (fuel : nat) (w : world) (cutoff_date : datetime) (id : string) (f : fields)
  (c p : string) (l1 l2 l3 : list call) (ids : list string)
  (video_stats : list video) (a_views : Z) :
  airtable_get w influencer_table id = Ok f ->
  YouTube_Channel_ID f = Some c -> c <> "" ->
  get_uploads_playlist_id w c = (l1, Returns (Some p)) -> p <> "" ->
  get_recent_video_ids fuel w p cutoff_date = (l2, Returns ids) -> ids <> [] ->
  get_video_stats_batch w ids = (l3, Returns video_stats) ->
  longform_views (fst (collect_metrics w video_stats no_metrics)) <> [] ->
  average (longform_views (fst (collect_metrics w video_stats no_metrics)))
    = Ok a_views ->
  longform_likes (fst (collect_metrics w video_stats no_metrics)) = [] \/
  (exists a_likes,
     average (longform_likes (fst (collect_metrics w video_stats no_metrics)))
       = Ok a_likes /\
     longform_comments (fst (collect_metrics w video_stats no_metrics)) = []) ->
  process_influencer fuel w cutoff_date id
  = ((AirtableGet influencer_table id :: l1 ++ l2 ++ l3)%list,
     Raises ZeroDivisionError).
Proof.
  intros Hget Hc Hne Hup Hp Hrec Hids Hstats Hviews Hav Hnone.
  rewrite (turn_with_videos fuel w cutoff_date id f c l1 p l2 ids
             Hget Hc Hne Hup Hp Hrec Hids).
  cbn [bind]. rewrite Hstats. cbn [bind]. cbv zeta.
  destruct (longform_views (fst (collect_metrics w video_stats no_metrics)))
    as [|v vs] eqn:Ev; [congruence|].
  rewrite Hav. cbn [lift ret bind app].
  destruct Hnone as [Hl|(a_likes & Hal & Hcm)].
  - rewrite Hl. change (average []) with (@Raise Z ZeroDivisionError).
    cbn [lift ret raise bind app]. now rewrite ?app_nil_r, <- ?app_assoc.
  - rewrite Hal, Hcm. change (average []) with (@Raise Z ZeroDivisionError).
    cbn [lift ret raise bind app]. now rewrite ?app_nil_r, <- ?app_assoc.
Qed.

Lemma turn_divides_by_zero_witness :
  process_influencer 1 Cases.deployment Cases.cutoff "recOdd"
  = ([ AirtableGet "Influencers" "recOdd"; YouTubeChannels "UC_O";
       YouTubePlaylistItems "UU_O" None; YouTubeVideos ["o1"] ],
     Raises ZeroDivisionError).
Proof.
  apply (turn_divides_by_zero 1 Cases.deployment Cases.cutoff "recOdd"
           (Sample.influencer (Some "UC_O")) "UC_O" "UU_O"
           [YouTubeChannels "UC_O"] [YouTubePlaylistItems "UU_O" None]
           [YouTubeVideos ["o1"]] ["o1"]
           [Sample.counted "PT5M" "20" "n/a" "4"] 20);
    try reflexivity; try discriminate.
  left. reflexivity.
Defined.

(* ===================================================================== *)
(** * The pass over the linked influencers *)
(* ===================================================================== *)

Section Pass.

Variable fuel : nat.
Variable w : world.
Variable cutoff_date : datetime.

Lemma pass_of_turns ids : forall acc turns,
  Forall2 (turn_of fuel w cutoff_date) ids turns ->
  for_influencers fuel w cutoff_date ids acc
  = (List.concat (map fst turns), Returns (acc ++ map snd turns)%list).
Proof.
  induction ids as [|id ids IH]; intros acc turns H;
    inversion H as [|? t ? turns' Ht Hrest]; subst; cbn [for_influencers].
  - cbn. now rewrite app_nil_r.
  - unfold turn_of in Ht. unfold bind. rewrite Ht.
    rewrite (IH _ turns' Hrest). cbn [map List.concat fst snd].
    now rewrite <- app_assoc.
Qed.

Lemma turns_of_pass ids : forall acc l results,
  for_influencers fuel w cutoff_date ids acc = (l, Returns results) ->
  exists turns,
    Forall2 (turn_of fuel w cutoff_date) ids turns /\
    l = List.concat (map fst turns) /\
    results = (acc ++ map snd turns)%list.
Proof.
  induction ids as [|id ids IH]; intros acc l results H;
    cbn [for_influencers] in H.
  - injection H as <- <-. exists []. cbn. rewrite app_nil_r. auto.
  - unfold bind in H.
    destruct (process_influencer fuel w cutoff_date id) as [l1 [e|x|]] eqn:E;
      try discriminate H.
    destruct (for_influencers fuel w cutoff_date ids (acc ++ [e])) as [l2 o] eqn:E2.
    injection H as <- ->.
    apply IH in E2. destruct E2 as (turns & Hturns & -> & ->).
    exists ((l1, e) :: turns). cbn [map List.concat fst snd].
    rewrite <- app_assoc. split; [|auto].
    constructor; [exact E|exact Hturns].
Qed.

Lemma pass_stops ids : forall acc turns id post l e,
  Forall2 (turn_of fuel w cutoff_date) ids turns ->
  process_influencer fuel w cutoff_date id = (l, Raises e) ->
  for_influencers fuel w cutoff_date (ids ++ id :: post) acc
  = ((List.concat (map fst turns) ++ l)%list, Raises e).
Proof.
  induction ids as [|i ids IH]; intros acc turns id post l e H Hraise;
    inversion H as [|? t ? turns' Ht Hrest]; subst; cbn [app for_influencers].
  - unfold bind. rewrite Hraise. reflexivity.
  - unfold turn_of in Ht. unfold bind. rewrite Ht.
    rewrite (IH _ turns' id post l e Hrest Hraise).
    cbn [map List.concat fst]. now rewrite <- app_assoc.
Qed.

End Pass.

(** X14.  The pass over the linked influencers returns exactly when
    every turn reports an entry; its requests are then those of the
    turns, one influencer after the other, and its result the entries
    in the same order after those already gathered.  A turn is not
    influenced by the turns before it. *)
Theorem pass_is_the_sequence_of_turns
  (fuel : nat) (w : world) (cutoff_date : datetime)
  (ids : list string) (acc : list entry) (l : list call) (results : list entry) :
  for_influencers fuel w cutoff_date ids acc = (l, Returns results) <->
  exists turns,
    Forall2 (turn_of fuel w cutoff_date) ids turns /\
    l = List.concat (map fst turns) /\
    results = (acc ++ map snd turns)%list.
Proof.
  split.
  - apply turns_of_pass.
  - intros (turns & H & -> & ->). now apply pass_of_turns.
Qed.

Lemma pass_is_the_sequence_of_turns_witness :
  for_influencers 1 Cases.deployment Cases.cutoff ["recNoList"; "recQuiet"] []
  = ([ AirtableGet "Influencers" "recNoList"; YouTubeChannels "UC_N";
       AirtableGet "Influencers" "recQuiet"; YouTubeChannels "UC_Q";
       YouTubePlaylistItems "UU_Q" None ],
     Returns [ skipped "recNoList" "No uploads playlist";
               skipped "recQuiet" "No recent videos" ]).
Proof.
  apply (pass_is_the_sequence_of_turns 1 Cases.deployment Cases.cutoff).
  exists [ ([AirtableGet "Influencers" "recNoList"; YouTubeChannels "UC_N"],
            skipped "recNoList" "No uploads playlist");
           ([AirtableGet "Influencers" "recQuiet"; YouTubeChannels "UC_Q";
             YouTubePlaylistItems "UU_Q" None],
            skipped "recQuiet" "No recent videos") ].
  split; [|split; reflexivity].
  repeat constructor.
Defined.

(** X15.  When the turn of a linked influencer raises, the endpoint
    raises the same exception: the entries of the influencers before it
    are lost with the report, the influencers after it are never
    requested, and what was written back for the earlier ones stays
    written. *)
Theorem endpoint_stops_at_the_first_raise
  (fuel : nat) (w : world) (d : request_json) (cid : string) (f : fields)
  (before : list string) (turns : list (list call * entry))
  (id : string) (after : list string) (l : list call) (e : exn) :
  campaignRecordId d = Some cid ->
  airtable_get w (campaign_table_of d) cid = Ok f ->
  linked_influencers f = (before ++ id :: after)%list ->
  Forall2 (turn_of fuel w (cutoff_of w)) before turns ->
  process_influencer fuel w (cutoff_of w) id = (l, Raises e) ->
  update_engagement_for_campaign fuel w (Some d)
  = ((AirtableGet (campaign_table_of d) cid :: List.concat (map fst turns) ++ l)%list,
     Raises e).
Proof.
  intros Hid Hget Hlinked Hturns Hraise.
  rewrite (endpoint_fetched fuel w d cid f Hid Hget), Hlinked.
  destruct (before ++ id :: after)%list as [|i rest] eqn:E;
    [destruct before; discriminate E|].
  rewrite <- E. fold (cutoff_of w).
  rewrite (pass_stops fuel w (cutoff_of w) before [] turns id after l e Hturns Hraise).
  reflexivity.
Qed.

Lemma endpoint_stops_at_the_first_raise_witness :
  update_engagement_for_campaign 1 Cases.deployment (Sample.post "campDown")
  = ([ AirtableGet "Campaigns" "campDown";
       AirtableGet "Influencers" "recFine"; YouTubeChannels "UC_F";
       YouTubePlaylistItems "UU_F" None; YouTubeVideos ["f1"; "f2"];
       AirtablePatch "Influencers" "recFine"
         {| LGVPV90 := 150; LGLPV90 := 15; LGCPV90 := 2 |};
       AirtableGet "Influencers" "recDown"; YouTubeChannels "UC_D" ],
     Raises Cases.unavailable).
Proof.
  apply (endpoint_stops_at_the_first_raise 1 Cases.deployment
           {| campaignRecordId := Some "campDown"; campaignTableName := None |}
           "campDown" (Sample.campaign (Some ["recFine"; "recDown"; "recQuiet"]))
           ["recFine"]
           [ ([ AirtableGet "Influencers" "recFine"; YouTubeChannels "UC_F";
                YouTubePlaylistItems "UU_F" None; YouTubeVideos ["f1"; "f2"];
                AirtablePatch "Influencers" "recFine"
                  {| LGVPV90 := 150; LGLPV90 := 15; LGCPV90 := 2 |} ],
              success "recFine") ]
           "recDown" ["recQuiet"]
           [AirtableGet "Influencers" "recDown"; YouTubeChannels "UC_D"]).
  - reflexivity.
  - reflexivity.
  - reflexivity.
  - repeat constructor.
  - reflexivity.
Defined.

(* ===================================================================== *)
(** * What the endpoint writes, and what its answers tell *)
(* ===================================================================== *)

Section Writes.

Variable fuel : nat.
Variable w : world.
Variable cutoff_date : datetime.

Lemma filter_no_patch l :
  forallb (fun x => negb (is_patch x)) l = true -> filter is_patch l = [].
Proof.
  induction l as [|c l IH]; cbn [forallb filter]; [reflexivity|].
  intros H. apply andb_true_iff in H. destruct H as [Hc Hl].
  apply negb_true_iff in Hc. rewrite Hc. now apply IH.
Qed.

Lemma pass_writes ids : forall acc l o t r p,
  for_influencers fuel w cutoff_date ids acc = (l, o) ->
  In (AirtablePatch t r p) l ->
  t = influencer_table /\ In r ids.
Proof.
  induction ids as [|id ids IH]; intros acc l o t r p H Hin;
    cbn [for_influencers] in H.
  - injection H as <- _. destruct Hin.
  - unfold bind in H.
    destruct (process_influencer fuel w cutoff_date id) as [l1 o1] eqn:E.
    assert (Hone : In (AirtablePatch t r p) l1 -> t = influencer_table /\ r = id).
    { intros Hi.
      destruct (persisted_values_are_averages fuel w cutoff_date id l1 o1 t r p E Hi)
        as (vs & Ht & Hr & _). auto. }
    destruct o1 as [e|x|].
    + destruct (for_influencers fuel w cutoff_date ids (acc ++ [e])) as [l2 o2] eqn:E2.
      injection H as <- _. apply in_app_iff in Hin. destruct Hin as [Hi|Hi].
      * destruct (Hone Hi) as [-> ->]. split; [reflexivity|now left].
      * destruct (IH _ _ _ _ _ _ E2 Hi) as [-> Hr]. split; [reflexivity|now right].
    + injection H as <- _. destruct (Hone Hin) as [-> ->]. split; [reflexivity|now left].
    + injection H as <- _. destruct (Hone Hin) as [-> ->]. split; [reflexivity|now left].
Qed.

End Writes.

(** X16.  A turn of the loop starts with the read of the influencer's
    record and writes at most once, as its last request and to that
    influencer's own record.  It reports [success] only when that write
    was accepted; when the write raises it reports [failed] with the
    text of the exception; on every other way out nothing is
    written. *)
Theorem turn_writes_at_most_once
  (fuel : nat) (w : world) (cutoff_date : datetime) (id : string)
  (l : list call) (o : outcome entry) :
  process_influencer fuel w cutoff_date id = (l, o) ->
  (exists rest, l = AirtableGet influencer_table id :: rest) /\
  ((filter is_patch l = [] /\
    forall reported, o = Returns reported -> status reported <> "success") \/
   (exists before p,
      l = (before ++ [AirtablePatch influencer_table id p])%list /\
      filter is_patch before = [] /\
      ((o = Returns (success id) /\
        airtable_patch w influencer_table id p = Ok tt) \/
       (exists e,
          o = Returns (failed id ("Failed to update Airtable: " ++ exn_text e)) /\
          airtable_patch w influencer_table id p = Raise e)))).
Proof.
  unfold process_influencer, get_airtable_record, update_airtable_record.
  unfold bind, catch, request, lift, ret, raise. intros H.
  repeat (match type of H with
          | context [match ?x with _ => _ end] =>
              lazymatch x with
              | context [match _ with _ => _ end] => fail
              | _ => destruct x eqn:?
              end
          end; cbv beta iota in H).
  all: injection H as <- <-.
  all: repeat match goal with
       | E : get_uploads_playlist_id _ _ = _ |- _ =>
           apply uploads_sends_no_patch, filter_no_patch in E
       | E : get_recent_video_ids _ _ _ _ = _ |- _ =>
           apply recent_sends_no_patch, filter_no_patch in E
       | E : get_video_stats_batch _ _ = _ |- _ =>
           apply stats_sends_no_patch, filter_no_patch in E
       | u : unit |- _ => destruct u
       end.
  all: cbn [app]; rewrite ?app_nil_r.
  all: split; [eexists; reflexivity|].
  all: try (left; split;
            [ cbn [filter is_patch]; rewrite ?filter_app;
              repeat match goal with E : filter is_patch _ = [] |- _ => rewrite E end;
              reflexivity
            | intros reported Hr; try discriminate Hr;
              injection Hr as <-; cbn; discriminate ]).
  all: right.
  all: match goal with
       | |- exists before p, (?a :: ?rest)%list = _ /\ _ =>
           match rest with
           | context [[AirtablePatch _ _ ?q]] =>
               exists (removelast (a :: rest)), q
           end
       end.
  all: rewrite ?app_assoc, ?app_comm_cons, removelast_last.
  all: split; [reflexivity|].
  all: split;
    [ cbn [filter is_patch app]; rewrite ?filter_app;
      repeat match goal with E : filter is_patch _ = [] |- _ => rewrite E end;
      reflexivity | ].
  all: first [ left; split; [reflexivity|assumption]
             | right; eexists; split; [reflexivity|eassumption] ].
Qed.

Lemma turn_writes_at_most_once_witness :
  (exists rest,
     [ AirtableGet "Influencers" "recQuiet"; YouTubeChannels "UC_Q";
       YouTubePlaylistItems "UU_Q" None ]
     = AirtableGet influencer_table "recQuiet" :: rest) /\
  ((filter is_patch
      [ AirtableGet "Influencers" "recQuiet"; YouTubeChannels "UC_Q";
        YouTubePlaylistItems "UU_Q" None ] = [] /\
    forall reported,
      Returns (skipped "recQuiet" "No recent videos") = Returns reported ->
      status reported <> "success") \/
   (exists before p,
      [ AirtableGet "Influencers" "recQuiet"; YouTubeChannels "UC_Q";
        YouTubePlaylistItems "UU_Q" None ]
      = (before ++ [AirtablePatch influencer_table "recQuiet" p])%list /\
      filter is_patch before = [] /\
      ((Returns (skipped "recQuiet" "No recent videos")
          = Returns (success "recQuiet") /\
        airtable_patch Cases.deployment influencer_table "recQuiet" p = Ok tt) \/
       (exists e,
          Returns (skipped "recQuiet" "No recent videos")
            = Returns (failed "recQuiet"
                         ("Failed to update Airtable: " ++ exn_text e)) /\
          airtable_patch Cases.deployment influencer_table "recQuiet" p
            = Raise e)))).
Proof.
  apply (turn_writes_at_most_once 1 Cases.deployment Cases.cutoff "recQuiet").
  reflexivity.
Defined.

(** X17.  What an answer of the endpoint tells about the request: a 400
    is answered only when the body has no [campaignRecordId], and then
    nothing was requested; a 500 only when the read of the campaign
    record raised, and then nothing else was requested; every other
    answer is a 200, given after the campaign record was read. *)
Theorem answer_tells_the_cause
  (fuel : nat) (w : world) (data : option request_json)
  (sent : list call) (answer : response) :
  update_engagement_for_campaign fuel w data = (sent, Returns answer) ->
  (status_code answer = 400 /\ sent = [] /\
   match data with Some d => campaignRecordId d | None => None end = None) \/
  (status_code answer = 500 /\
   exists d id e,
     data = Some d /\ campaignRecordId d = Some id /\
     airtable_get w (campaign_table_of d) id = Raise e /\
     sent = [AirtableGet (campaign_table_of d) id]) \/
  (status_code answer = 200 /\
   exists d id f rest,
     data = Some d /\ campaignRecordId d = Some id /\
     airtable_get w (campaign_table_of d) id = Ok f /\
     sent = AirtableGet (campaign_table_of d) id :: rest).
Proof.
  intros H.
  destruct (match data with Some d => campaignRecordId d | None => None end)
    as [id|] eqn:Hkey.
  - destruct data as [d|]; [|discriminate Hkey].
    destruct (airtable_get w (campaign_table_of d) id) as [f|e] eqn:Hget.
    + right. right.
      rewrite (endpoint_fetched fuel w d id f Hkey Hget) in H.
      destruct (linked_influencers f) as [|i rest].
      * injection H as <- <-. split; [reflexivity|].
        exists d, id, f, []. auto.
      * unfold bind, request, ret in H.
        destruct (for_influencers fuel w _ (i :: rest) []) as [l [r|x|]];
          try discriminate H.
        injection H as <- <-. split; [reflexivity|].
        exists d, id, f, (l ++ [])%list. auto.
    + right. left.
      rewrite (endpoint_fetch_failed fuel w d id e Hkey Hget) in H.
      injection H as <- <-. split; [reflexivity|].
      exists d, id, e. auto.
  - left. rewrite (endpoint_missing_id fuel w data Hkey) in H.
    injection H as <- <-. auto.
Qed.

Lemma answer_tells_the_cause_witness :
  (500 = 400 /\ [AirtableGet "Campaigns" "campGone"] = [] /\
   Some "campGone" = None) \/
  (500 = 500 /\
   exists d id e,
     Sample.post "campGone" = Some d /\ campaignRecordId d = Some id /\
     airtable_get Cases.deployment (campaign_table_of d) id = Raise e /\
     [AirtableGet "Campaigns" "campGone"] = [AirtableGet (campaign_table_of d) id]) \/
  (500 = 200 /\
   exists d id f rest,
     Sample.post "campGone" = Some d /\ campaignRecordId d = Some id /\
     airtable_get Cases.deployment (campaign_table_of d) id = Ok f /\
     [AirtableGet "Campaigns" "campGone"]
     = AirtableGet (campaign_table_of d) id :: rest).
Proof.
  apply (answer_tells_the_cause 1 Cases.deployment (Sample.post "campGone")
           [AirtableGet "Campaigns" "campGone"]
           {| status_code := 500;
              json := ErrorBody
                "Failed to fetch campaign record: 404 Client Error: Not Found" |}).
  reflexivity.
Defined.

(** X18.  Whatever happens, a request that names a campaign starts with
    the read of that campaign's record, in the table the request names
    or in ["Campaigns"], and every write it makes goes to the
    ["Influencers"] table, to the record of an influencer that the
    campaign links.  Hence, when the campaign is read from another
    table than ["Influencers"], no write goes to the campaign's table.
    (A request that names the ["Influencers"] table as the campaign
    table is not covered by this last part.) *)
Theorem endpoint_writes_only_to_linked_influencers
  (fuel : nat) (w : world) (d : request_json) (cid : string) :
  campaignRecordId d = Some cid ->
  exists rest,
    calls (update_engagement_for_campaign fuel w (Some d))
    = AirtableGet (campaign_table_of d) cid :: rest /\
    (forall t r p,
       In (AirtablePatch t r p) rest ->
       t = influencer_table /\
       exists f,
         airtable_get w (campaign_table_of d) cid = Ok f /\
         In r (linked_influencers f)) /\
    (campaign_table_of d <> influencer_table ->
     forall r p, ~ In (AirtablePatch (campaign_table_of d) r p) rest).
Proof.
  intros Hid.
  assert (Hmain : exists rest,
    calls (update_engagement_for_campaign fuel w (Some d))
    = AirtableGet (campaign_table_of d) cid :: rest /\
    (forall t r p,
       In (AirtablePatch t r p) rest ->
       t = influencer_table /\
       exists f,
         airtable_get w (campaign_table_of d) cid = Ok f /\
         In r (linked_influencers f))).
  { destruct (airtable_get w (campaign_table_of d) cid) as [f|e] eqn:Hget.
    - rewrite (endpoint_fetched fuel w d cid f Hid Hget).
      destruct (linked_influencers f) as [|i ids] eqn:Hl.
      + exists []. split; [reflexivity|]. intros t r p [].
      + unfold bind, request, ret, calls.
        destruct (for_influencers fuel w _ (i :: ids) []) as [l o] eqn:Hfor.
        exists l. split; [destruct o; cbn; rewrite ?app_nil_r; reflexivity|].
        intros t r p Hin.
        destruct (pass_writes fuel w _ _ _ _ _ t r p Hfor Hin) as [-> Hr].
        split; [reflexivity|]. exists f. rewrite Hl. auto.
    - rewrite (endpoint_fetch_failed fuel w d cid e Hid Hget).
      exists []. split; [reflexivity|]. intros t r p []. }
  destruct Hmain as (rest & Hcalls & Hwrites).
  exists rest. split; [exact Hcalls|]. split; [exact Hwrites|].
  intros Hother r p Hin.
  destruct (Hwrites _ _ _ Hin) as [Ht _]. contradiction.
Qed.

Lemma endpoint_writes_only_to_linked_influencers_witness :
  exists rest,
    calls (update_engagement_for_campaign 1 Cases.deployment
             (Some {| campaignRecordId := Some "campMixed";
                      campaignTableName := Some "Campaigns" |}))
    = AirtableGet "Campaigns" "campMixed" :: rest /\
    (forall t r p,
       In (AirtablePatch t r p) rest ->
       t = influencer_table /\
       exists f,
         airtable_get Cases.deployment "Campaigns" "campMixed" = Ok f /\
         In r (linked_influencers f)) /\
    ("Campaigns" <> influencer_table ->
     forall r p, ~ In (AirtablePatch "Campaigns" r p) rest).
Proof.
  apply (endpoint_writes_only_to_linked_influencers 1 Cases.deployment
           {| campaignRecordId := Some "campMixed";
              campaignTableName := Some "Campaigns" |} "campMixed").
  reflexivity.
Defined.

(* ===================================================================== *)
(** * The address of a record *)
(* ===================================================================== *)

Section Addresses.

Lemma append_cancel_l (a x y : string) : a ++ x = a ++ y -> x = y.
Proof.
  induction a as [|c a IH]; cbn; [auto|].
  intros H. injection H as H. auto.
Qed.

Lemma append_assoc_l (a b c : string) : (a ++ b) ++ c = a ++ (b ++ c).
Proof. induction a as [|x a IH]; cbn; [reflexivity|now rewrite IH]. Qed.

Lemma slash_splits (t1 t2 i1 i2 : string) :
  has_no_slash t1 -> has_no_slash t2 ->
  t1 ++ String "/" i1 = t2 ++ String "/" i2 ->
  t1 = t2 /\ i1 = i2.
Proof.
  unfold has_no_slash. revert t2.
  induction t1 as [|c t1 IH]; intros [|c2 t2] H1 H2 H; cbn in *.
  - injection H as ->. auto.
  - injection H as <- _. discriminate H2.
  - injection H as -> _. discriminate H1.
  - injection H as -> H.
    apply andb_true_iff in H1. apply andb_true_iff in H2.
    destruct (IH t2 (proj2 H1) (proj2 H2) H) as [-> ->]. auto.
Qed.

End Addresses.

(** X20.  [get_airtable_record] and [update_airtable_record] address a
    record by the base URL followed by the table name and the record
    id, separated by slashes.  For table names without a slash the
    address determines the table and the record; a slash in a table
    name moves the boundary, so that such a name and a record id can
    address the record of another table. *)
Theorem record_url_determines_the_record (base_id : string) :
  (forall t1 i1 t2 i2,
     has_no_slash t1 -> has_no_slash t2 ->
     record_url base_id t1 i1 = record_url base_id t2 i2 ->
     t1 = t2 /\ i1 = i2) /\
  (forall t i j,
     record_url base_id (t ++ "/" ++ i) j = record_url base_id t (i ++ "/" ++ j)).
Proof.
  unfold record_url, airtable_base_url. split.
  - intros t1 i1 t2 i2 H1 H2 H.
    apply append_cancel_l in H. cbn in H. injection H as H.
    now apply slash_splits.
  - intros t i j. f_equal. f_equal.
    now rewrite !append_assoc_l.
Qed.

Lemma record_url_determines_the_record_witness :
  "Influencers" = "Influencers" /\ "recA" = "recA".
Proof.
  destruct (record_url_determines_the_record "appBase") as [H _].
  apply (H "Influencers" "recA" "Influencers" "recA"); reflexivity.
Defined.
